(** * Stack Overflow tag chart: the pipeline of [app.py]

    A shallow embedding of [generate_growth_pattern], [process_csv] and
    [get_data], and the properties of the specification checked on it.

    Modelling conventions.
    - A Python [int] is a [Z].  A Python [float] is modelled by a rational
      ([Q]): a literal denotes its decimal value and [/], [*] and [+] are
      exact, binary64 rounding and overflow being idealised away.  [int(x)]
      truncates towards zero and [round(x, 2)] rounds half to even on the
      exact value.
    - [math.log] and [random.random] are library calls.  The logarithm is a
      parameter of the development; the random source is an explicit state
      threaded through the calls, in the order in which the code draws.
    - A [str] is a [string] whose characters are the code points below 256.
    - A [dict] is an association list kept in insertion order, as CPython
      keeps it; [d[k] = v] overwrites in place or appends.
    - Exceptions are values of [exn]; code that may raise lives in the
      [result] monad, and [try]/[except] is a match on the outcome. *)

From Stdlib Require Import List ZArith QArith Qround Qabs String Ascii Bool.
From Stdlib Require Import Lia Lqa Permutation Sorted Morphisms.
Import ListNotations.

Open Scope string_scope.
Open Scope Z_scope.
Open Scope list_scope.

(** ** Exceptions and the [result] monad *)

Inductive exn : Type :=
| KeyError (msg : string)
| ValueError (msg : string)
| AttributeError (msg : string)
| TypeError (msg : string)
| IndexError (msg : string).

(** [str(e)] *)
Definition str (e : exn) : string :=
  match e with
  | KeyError m | ValueError m | AttributeError m | TypeError m | IndexError m => m
  end.

Inductive result (A : Type) : Type :=
| Ok (a : A)
| Raise (e : exn).

Arguments Ok {A} a.
Arguments Raise {A} e.

Definition bind {A B : Type} (c : result A) (k : A -> result B) : result B :=
  match c with
  | Ok a => k a
  | Raise e => Raise e
  end.

Notation "x <- c ;; k" := (bind c (fun x => k))
  (at level 61, c at next level, right associativity).
Notation "' pat <- c ;; k" := (bind c (fun x => match x with pat => k end))
  (at level 61, pat pattern, c at next level, right associativity).

(** A [for] loop whose body may raise: the first exception leaves the loop. *)
Fixpoint for_each {A S : Type} (xs : list A) (body : S -> A -> result S) (s : S)
  : result S :=
  match xs with
  | [] => Ok s
  | x :: xs' => s' <- body s x ;; for_each xs' body s'
  end.

(** ** Strings: [str.strip] *)

(** [str.isspace] on one character (code points below 256). *)
Definition isspace (c : ascii) : bool :=
  let n := nat_of_ascii c in
  ((9 <=? n) && (n <=? 13) || (28 <=? n) && (n <=? 32)
   || (n =? 133) || (n =? 160))%nat.

Definition is_empty (s : string) : bool :=
  match s with
  | EmptyString => true
  | String _ _ => false
  end.

Fixpoint lstrip (s : string) : string :=
  match s with
  | EmptyString => EmptyString
  | String c s' => if isspace c then lstrip s' else s
  end.

Fixpoint rstrip (s : string) : string :=
  match s with
  | EmptyString => EmptyString
  | String c s' =>
      let r := rstrip s' in
      if isspace c && is_empty r then EmptyString else String c r
  end.

Definition strip (s : string) : string := rstrip (lstrip s).

(** ** Insertion-ordered dictionaries *)

Class Key (K : Type) : Type := {
  key_eqb : K -> K -> bool;
  key_eqb_spec : forall a b, reflect (a = b) (key_eqb a b)
}.

#[export] Instance string_Key : Key string :=
  {| key_eqb := String.eqb; key_eqb_spec := String.eqb_spec |}.

#[export] Instance Z_Key : Key Z :=
  {| key_eqb := Z.eqb; key_eqb_spec := Z.eqb_spec |}.

Section Dict.
Context {K V : Type} `{Key K}.

Definition dict : Type := list (K * V).

(** [d.get(k)] *)
Fixpoint get (d : dict) (k : K) : option V :=
  match d with
  | [] => None
  | (k', v) :: d' => if key_eqb k k' then Some v else get d' k
  end.

(** [d[k] = v] *)
Fixpoint set (d : dict) (k : K) (v : V) : dict :=
  match d with
  | [] => [(k, v)]
  | (k', v') :: d' =>
      if key_eqb k k' then (k, v) :: d' else (k', v') :: set d' k v
  end.

(** [d[k]], which raises [KeyError] on an absent key *)
Definition getitem (d : dict) (k : K) : result V :=
  match get d k with
  | Some v => Ok v
  | None => Raise (KeyError "key")
  end.

(** [d.keys()], [d.items()] and [len(d)] *)
Definition keys (d : dict) : list K := map fst d.
Definition items (d : dict) : list (K * V) := d.
Definition len (d : dict) : Z := Z.of_nat (List.length d).
End Dict.

Arguments dict K V : clear implicits.

(** [l[i]], which raises [IndexError] out of range *)
Definition list_getitem {A : Type} (l : list A) (i : nat) : result A :=
  match nth_error l i with
  | Some a => Ok a
  | None => Raise (IndexError "list index out of range")
  end.

(** [range(n)] and [enumerate(l)] *)
Definition range (n : nat) : list Z := map Z.of_nat (seq 0 n).
Definition enumerate {A : Type} (l : list A) : list (nat * A) :=
  combine (seq 0 (List.length l)) l.

(** ** Numbers *)

(** [int(x)] on a float: truncation towards zero. *)
Definition int (x : Q) : Z := Z.quot (Qnum x) (Z.pos (Qden x)).

(** Rounding to the nearest integer, ties to the even one. *)
Definition round_half_even (x : Q) : Z :=
  let f := Qfloor x in
  match (x - inject_Z f ?= 1 # 2)%Q with
  | Lt => f
  | Gt => f + 1
  | Eq => if Z.even f then f else f + 1
  end.

(** [round(x, ndigits)] for [ndigits >= 0] *)
Definition round (x : Q) (ndigits : nat) : Q :=
  let scale := Pos.pow 10 (Pos.of_nat ndigits) in
  match ndigits with
  | O => inject_Z (round_half_even x)
  | S _ => round_half_even (x * inject_Z (Z.pos scale)) # scale
  end.

(** ** The random source *)

(** [random.random()] returns the next value of the source, in [0, 1). *)
Record rng : Type := { source : nat -> Q; cursor : nat }.

Definition random (g : rng) : Q * rng :=
  (source g (cursor g), {| source := source g; cursor := S (cursor g) |}).

(** [random.uniform(a, b)] is [a + (b - a) * random()]. *)
Definition uniform (a b : Q) (g : rng) : Q * rng :=
  let '(r, g) := random g in ((a + (b - a) * r)%Q, g).

Definition valid_rng (g : rng) : Prop :=
  forall n, (0 <= source g n /\ source g n < 1)%Q.

(** ** Growth Synthesizer *)

Section Pipeline.

(** [math.log], restricted to the integer arguments the code passes. *)
Variable math_log : Z -> Q.

Definition generate_growth_pattern (base_count : Z) (years : list Z) (g : rng)
  : list Z * rng :=
  let counts : list Z := [] in
  if base_count >? 1500 then
    fold_left (fun '(counts, g) year_index =>
      let growth := (0.4 + math_log (year_index + 2) * 0.3)%Q in
      let '(variation, g) := uniform 0.95 1.05 g in
      let count := int (inject_Z base_count * growth * variation) in
      (counts ++ [count], g)) (range 3) (counts, g)
  else if base_count >? 800 then
    fold_left (fun '(counts, g) year_index =>
      let '(u, g) := uniform (-0.05) 0.05 g in
      let growth := (0.4 + inject_Z year_index * 0.18 + u)%Q in
      let count := int (inject_Z base_count * growth) in
      (counts ++ [count], g)) (range 3) (counts, g)
  else
    fold_left (fun '(counts, g) year_index =>
      let '(u, g) := uniform (-0.1) 0.15 g in
      let growth := (0.4 + inject_Z year_index * 0.15 + u)%Q in
      let count := int (inject_Z base_count * growth) in
      (counts ++ [count], g)) (range 3) (counts, g).


(** ** CSV Aggregator *)

(** The input file is given by the rows [csv.reader] yields for it, the
    header row first; a file without any line has no row. *)
Definition csv_rows : Type := list (list string).

(** [csv.DictReader]: the first row gives [fieldnames] ([None] when there is
    none); every later row that is not empty becomes a dict from the field
    names to its cells, a missing cell being [restval], which is [None].
    Cells beyond the last field name go under the key [None], which no lookup
    of a field name sees: they are left out. *)
Definition fieldnames (file : csv_rows) : option (list string) := hd_error file.

Definition restval : option string := None.

Definition DictReader_row (fields row : list string)
  : dict string (option string) :=
  let d := fold_left (fun d '(k, v) => set d k (Some v)) (combine fields row) [] in
  fold_left (fun d key => set d key restval) (skipn (List.length row) fields) d.

Definition DictReader (file : csv_rows) : list (dict string (option string)) :=
  match file with
  | [] => []
  | fields :: rows =>
      map (DictReader_row fields)
          (filter (fun row => negb (Nat.eqb (List.length row) 0)) rows)
  end.

(** [v.strip()] on a cell: [None] has no such attribute. *)
Definition cell_strip (v : option string) : result string :=
  match v with
  | Some s => Ok (strip s)
  | None => Raise (AttributeError "'NoneType' object has no attribute 'strip'")
  end.

(** The loop variables of lines 36-54: [tag_counts], [total_rows],
    [processed_rows]. *)
Definition tally : Type := dict string Z * Z * Z.

(** [tag_counts[tag] += 1] on a [defaultdict(int)] *)
Definition increment (tag_counts : dict string Z) (tag : string) : dict string Z :=
  match get tag_counts tag with
  | Some n => set tag_counts tag (n + 1)
  | None => set tag_counts tag (0 + 1)
  end.

(** The body of [for row in reader] (lines 63-72). *)
Definition count_row (st : tally) (row : dict string (option string))
  : result tally :=
  let '(tag_counts, total_rows, processed_rows) := st in
  let total_rows := total_rows + 1 in
  match
    v <- getitem row "Tag" ;;
    tag <- cell_strip v ;;
    if negb (is_empty tag) then
      Ok (increment tag_counts tag, total_rows, processed_rows + 1)
    else Ok (tag_counts, total_rows, processed_rows)
  with
  | Ok st' => Ok st'
  | Raise (ValueError _) | Raise (KeyError _) =>
      Ok (tag_counts, total_rows, processed_rows)
  | Raise e => Raise e
  end.

(** ** Report *)

Record tag_series : Type := {
  name : string;
  data : list Q;
  average : Q
}.

Record metadata : Type := {
  total_rows : Z;
  processed_rows : Z;
  unique_tags : Z;
  top_tags_count : Z
}.

Record report : Type := {
  years : list Z;
  tags : list tag_series;
  total_questions : dict Z Z;
  meta : metadata
}.

(** What [process_csv] returns: [{'error': msg}] or the report. *)
Inductive payload : Type :=
| ErrorPayload (msg : string)
| ReportPayload (r : report).

(** The [with open(...)] block (lines 51-79) inside its [try]: it returns
    early with an error payload, or falls through with the tally. *)
Definition read_rows (file : csv_rows) : result (payload + tally) :=
  let required_fields := ["Tag"] in
  valid <-
    match fieldnames file with
    | Some names =>
        Ok (forallb (fun field => existsb (key_eqb field) names) required_fields)
    | None => Raise (TypeError "argument of type 'NoneType' is not iterable")
    end ;;
  if negb valid then Ok (inl (ErrorPayload "Invalid CSV structure"))
  else
    st <- for_each (DictReader file) count_row ([], 0, 0) ;;
    let '(_, _, processed_rows) := st in
    if processed_rows =? 0 then Ok (inl (ErrorPayload "No valid data found in CSV"))
    else Ok (inr st).

(** ** Sorting *)

(** [sorted(l, key=key, reverse=reverse)]: Python's sort is stable in both
    directions, so its result is that of a stable insertion sort. *)
Section Sorting.
Context {A T : Type} (le : T -> T -> bool) (key : A -> T) (reverse : bool).

Definition goes_before (x y : A) : bool :=
  if reverse then le (key y) (key x) else le (key x) (key y).

Fixpoint insert (x : A) (l : list A) : list A :=
  match l with
  | [] => [x]
  | y :: l' => if goes_before x y then x :: l else y :: insert x l'
  end.

Definition sorted (l : list A) : list A := fold_right insert [] l.
End Sorting.

(** [list(range(a, b))] *)
Definition range_from (a b : Z) : list Z :=
  map (fun i => a + Z.of_nat i) (seq 0 (Z.to_nat (b - a))).

(** Lines 86-87. *)
Definition select_top_tags (tag_counts : dict string Z) : list (string * Z) :=
  let top_tags := firstn 10 (sorted Z.leb snd true (items tag_counts)) in
  map (fun '(tag, count) => (tag, count)) top_tags.

(** Lines 91-97: one synthetic series per top tag, stored by year. *)
Definition fill_yearly_data (top_tags : list (string * Z)) (years : list Z)
    (g : rng) : result (dict Z (dict string Z) * rng) :=
  let yearly_data : dict Z (dict string Z) :=
    fold_left (fun d year => set d year []) years [] in
  for_each top_tags (fun '(yearly_data, g) '(tag, base_count) =>
    let '(counts, g) := generate_growth_pattern base_count years g in
    yearly_data <-
      for_each (enumerate years) (fun yearly_data '(year_index, year) =>
        count <- list_getitem counts year_index ;;
        of_year <- getitem yearly_data year ;;
        Ok (set yearly_data year (set of_year tag count))) yearly_data ;;
    Ok (yearly_data, g)) (yearly_data, g).

(** Lines 100-114: yearly totals and rounded percentages. *)
Definition fill_percentages (top_tags : list (string * Z)) (years : list Z)
    (yearly_data : dict Z (dict string Z))
  : result (dict Z Z * dict Z (dict string Q)) :=
  let yearly_totals : dict Z Z := [] in
  let yearly_percentages : dict Z (dict string Q) :=
    fold_left (fun d year => set d year []) years [] in
  for_each years (fun '(yearly_totals, yearly_percentages) year =>
    total_questions <-
      for_each top_tags (fun total_questions '(tag, _) =>
        of_year <- getitem yearly_data year ;;
        count <- getitem of_year tag ;;
        Ok (total_questions + count)) 0 ;;
    let yearly_totals := set yearly_totals year total_questions in
    yearly_percentages <-
      for_each top_tags (fun yearly_percentages '(tag, _) =>
        of_year <- getitem yearly_data year ;;
        tag_count <- getitem of_year tag ;;
        let percentage :=
          if total_questions >? 0
          then (inject_Z tag_count / inject_Z total_questions * 100)%Q
          else 0%Q in
        pct_of_year <- getitem yearly_percentages year ;;
        Ok (set yearly_percentages year
                (set pct_of_year tag (round percentage 2)))) yearly_percentages ;;
    Ok (yearly_totals, yearly_percentages)) (yearly_totals, yearly_percentages).

(** [yearly_percentages[year][tag] for year in years] *)
Definition percentages_of (yearly_percentages : dict Z (dict string Q))
    (years : list Z) (tag : string) : result (list Q) :=
  for_each years (fun acc year =>
    of_year <- getitem yearly_percentages year ;;
    p <- getitem of_year tag ;;
    Ok (acc ++ [p])) [].

(** [sum(l)] on floats, from the start value [0] *)
Definition sum (l : list Q) : Q := fold_left Qplus l 0%Q.

(** Lines 131-134. *)
Definition fill_tag_totals (top_tags : list (string * Z)) (years : list Z)
    (yearly_percentages : dict Z (dict string Q)) : result (dict string Q) :=
  for_each top_tags (fun tag_totals '(tag, _) =>
    ps <- percentages_of yearly_percentages years tag ;;
    let total_percentage := sum ps in
    Ok (set tag_totals tag
            (round (total_percentage / inject_Z (Z.of_nat (List.length years))) 2)))
    [].

(** Lines 137-144. *)
Definition fill_tags_data (top_tags : list (string * Z)) (years : list Z)
    (yearly_percentages : dict Z (dict string Q)) (tag_totals : dict string Q)
  : result (list tag_series) :=
  for_each top_tags (fun tags_data '(tag, _) =>
    percentages <- percentages_of yearly_percentages years tag ;;
    avg <- getitem tag_totals tag ;;
    Ok (tags_data ++ [{| name := tag; data := percentages; average := avg |}]))
    [].

(** Lines 86-159, after the tally has been read.  The block that writes
    [tag_summary.csv] (lines 117-128) reads the tables, catches its own
    exceptions and changes nothing that is returned: it is left out. *)
Definition build_report (st : tally) (g : rng) : result payload :=
  let '(tag_counts, total_rows, processed_rows) := st in
  let top_tags := select_top_tags tag_counts in
  let years := range_from 2023 2026 in
  '(yearly_data, _) <- fill_yearly_data top_tags years g ;;
  '(yearly_totals, yearly_percentages) <-
    fill_percentages top_tags years yearly_data ;;
  tag_totals <- fill_tag_totals top_tags years yearly_percentages ;;
  tags_data <- fill_tags_data top_tags years yearly_percentages tag_totals ;;
  let tags_data := sorted Qle_bool average true tags_data in
  total_questions <-
    for_each years (fun d year =>
      t <- getitem yearly_totals year ;; Ok (set d year t)) [] ;;
  Ok (ReportPayload
        {| years := years;
           tags := tags_data;
           total_questions := total_questions;
           meta := {| total_rows := total_rows;
                      processed_rows := processed_rows;
                      unique_tags := len tag_counts;
                      top_tags_count := Z.of_nat (List.length top_tags) |} |}).

(** [process_csv()].  The file system is the argument [fs]: [None] when the
    path does not exist, the rows of the file otherwise.  The state of the
    random source after the call is not observed. *)
Definition process_csv (fs : option csv_rows) (g : rng) : result payload :=
  match fs with
  | None => Ok (ErrorPayload "CSV file not found")
  | Some file =>
      match read_rows file with
      | Raise e => Ok (ErrorPayload ("Error reading CSV file: " ++ str e)%string)
      | Ok (inl early) => Ok early
      | Ok (inr st) => build_report st g
      end
  end.

(** ** HTTP Service *)

Record response : Type := { status : Z; body : payload }.

(** [get_data()], given the outcome of its call of [process_csv()]. *)
Definition get_data (call : result payload) : response :=
  match call with
  | Ok data => {| status := 200; body := data |}
  | Raise e => {| status := 500; body := ErrorPayload (str e) |}
  end.

(** GET /api/data *)
Definition api_data (fs : option csv_rows) (g : rng) : response :=
  get_data (process_csv fs g).

End Pipeline.

(** ** The specification's reading of the Growth Synthesizer *)






(** The [i]-th value the source will return from the state [g] on, and the
    uniform draw of tier [t] made from it. *)
Definition upcoming (g : rng) (i : nat) : Q := source g (i + cursor g)%nat.


(** ** The specification's reading of the CSV Aggregator *)

(** The trimmed value of the tag field of a row, when the field holds one. *)
Definition trimmed_tag (row : dict string (option string)) : option string :=
  match get row "Tag" with
  | Some (Some s) => Some (strip s)
  | _ => None
  end.

(** A row contributes when its trimmed tag value is not empty. *)
Definition contributes (row : dict string (option string)) : bool :=
  match trimmed_tag row with
  | Some tag => negb (is_empty tag)
  | None => false
  end.


(** The tags of the contributing rows, in the order of the input. *)
Definition seen_tags (rows : list (dict string (option string))) : list string :=
  flat_map (fun row =>
              match trimmed_tag row with
              | Some tag => if is_empty tag then [] else [tag]
              | None => []
              end) rows.

(** The tally of a sequence of tags: what the loop makes of [tag_counts]. *)
Definition tally_of (seen : list string) : dict string Z :=
  fold_left increment seen [].

(** The number of occurrences of a tag in the input. *)
Definition occurrences (tag : string) (seen : list string) : Z :=
  Z.of_nat (count_occ string_dec seen tag).


(** [a] stands at an earlier position than [b] in the list. *)
Definition precedes {A : Type} (a b : A) (l : list A) : Prop :=
  exists l1 l2 l3, l = l1 ++ a :: l2 ++ b :: l3.

(** ** The specification's reading of the Report Builder *)

(** The synthetic series of the top tags, drawn one tag after the other. *)
Fixpoint synthesize (math_log : Z -> Q) (top_tags : list (string * Z))
    (years : list Z) (g : rng) : list (string * list Z) :=
  match top_tags with
  | [] => []
  | (tag, base_count) :: rest =>
      let '(counts, g') := generate_growth_pattern math_log base_count years g in
      (tag, counts) :: synthesize math_log rest years g'
  end.

(** The counts of the year of index [j], one per tag, and their sum. *)
Definition year_counts (j : nat) (series : list (string * list Z)) : list Z :=
  map (fun '(_, counts) => nth j counts 0) series.

Definition yearly_total (j : nat) (series : list (string * list Z)) : Z :=
  fold_left Z.add (year_counts j series) 0.

(** The share of a tag in a year: count / total * 100 rounded to 2 decimals,
    and 0 when the total is 0. *)
Definition percentage (tag_count total_questions : Z) : Q :=
  round (if total_questions >? 0
         then inject_Z tag_count / inject_Z total_questions * 100
         else 0)%Q 2.

Definition percentages (series : list (string * list Z)) : list (string * list Q) :=
  map (fun '(tag, counts) =>
         (tag, map (fun j => percentage (nth j counts 0) (yearly_total j series))
                   (seq 0 3))) series.

(** The entry of a tag in the report: its three percentages and their mean,
    rounded to 2 decimals. *)
Definition series_of (entry : string * list Q) : tag_series :=
  let '(tag, ps) := entry in
  {| name := tag; data := ps; average := round (sum ps / 3) 2 |}.

(** The years of the report. *)
Abbreviation years3 := [2023; 2024; 2025].

(** The column of a year in [yearly_data]. *)
Definition column (j : nat) (series : list (string * list Z)) : dict string Z :=
  map (fun '(tag, counts) => (tag, nth j counts 0)) series.

(** The column of a year in [yearly_percentages], and the row of a tag. *)
Definition pct_column (j : nat) (series : list (string * list Z)) : dict string Q :=
  map (fun '(tag, counts) =>
         (tag, percentage (nth j counts 0) (yearly_total j series))) series.

Definition pct_entry (series : list (string * list Z)) (entry : string * list Z)
  : string * list Q :=
  let '(tag, counts) := entry in
  (tag, map (fun j => percentage (nth j counts 0) (yearly_total j series)) (seq 0 3)).

(** The top tags of a file. *)
Definition top_tags_of (file : csv_rows) : list (string * Z) :=
  select_top_tags (tally_of (seen_tags (DictReader file))).

(** ** The specification's reading of the HTTP Service *)


(** The logarithm is not negative on the arguments the code passes. *)
Definition log_nonneg (math_log : Z -> Q) : Prop :=
  forall n, 2 <= n <= 4 -> (0 <= math_log n)%Q.

(** A value rounded to 2 decimals. *)
Definition two_decimals (p : Q) : Prop := exists q, p = round q 2.

(** ** Concrete library values, for running the model *)

(** [math.log(2)], [math.log(3)] and [math.log(4)] to 16 significant digits. *)
Definition libm_log (n : Z) : Q :=
  match n with
  | 2 => 0.6931471805599453%Q
  | 3 => 1.0986122886681098%Q
  | 4 => 1.3862943611198906%Q
  | _ => 0%Q
  end.

(** A random source that returns the same value at every call. *)
Definition constant_rng (r : Q) : rng := {| source := fun _ => r; cursor := 0 |}.

(** ** Sample inputs *)

(** The example of the specification: 2000 rows tagged Python, 600 tagged Go. *)
Definition sample_file : csv_rows :=
  ["Tag"] :: repeat ["Python"] 2000 ++ repeat ["Go"] 600.

Definition sample_report : report :=
  Eval vm_compute in
    match process_csv libm_log (Some sample_file) (constant_rng 0.5) with
    | Ok (ReportPayload r) => r
    | _ => {| years := []; tags := []; total_questions := [];
              meta := {| total_rows := 0; processed_rows := 0;
                         unique_tags := 0; top_tags_count := 0 |} |}
    end.

(** A file whose second record stops before the [Tag] column. *)
Definition short_row_file : csv_rows :=
  [["Id"; "Tag"]; ["1"; "python"]; ["2"]; ["3"; "go"]].


(** A few records, with repeated, padded and blank tags. *)
Definition mixed_file : csv_rows :=
  [["Id"; "Tag"]; ["1"; "python"]; ["2"; " go "]; ["3"; "python"]; ["4"; "  "];
   []; ["5"; "rust"]].

(** ** The summary file *)

(** A value handed to [writer.writerow]. *)
Inductive cell : Type :=
| IntCell (n : Z)
| StrCell (s : string)
| FloatCell (x : Q).

Definition summary_header : list cell :=
  [StrCell "Year"; StrCell "Tag"; StrCell "Count"; StrCell "Total Questions";
   StrCell "Percentage"].

(** Lines 119-126: the rows written, the header first. *)
Definition summary_rows (top_tags : list (string * Z)) (years : list Z)
    (yearly_data : dict Z (dict string Z)) (yearly_totals : dict Z Z)
    (yearly_percentages : dict Z (dict string Q)) : result (list (list cell)) :=
  for_each years (fun written year =>
    for_each top_tags (fun written '(tag, _) =>
      of_year <- getitem yearly_data year ;;
      count <- getitem of_year tag ;;
      total <- getitem yearly_totals year ;;
      pct_of_year <- getitem yearly_percentages year ;;
      percentage <- getitem pct_of_year tag ;;
      Ok (written ++ [[IntCell year; StrCell tag; IntCell count; IntCell total;
                       FloatCell percentage]])) written) [summary_header].

(** Lines 117-128: the [try] around the block.  [open] raises when the path
    cannot be written; whatever is raised is caught and printed.  The result
    is the content of [tag_summary.csv] when the block ends normally, [None]
    when an exception left it (what a partly written file then holds is not
    modelled). *)
Definition write_summary (writable : bool) (top_tags : list (string * Z))
    (years : list Z) (yearly_data : dict Z (dict string Z)) (yearly_totals : dict Z Z)
    (yearly_percentages : dict Z (dict string Q)) : option (list (list cell)) :=
  if writable then
    match summary_rows top_tags years yearly_data yearly_totals yearly_percentages with
    | Ok written => Some written
    | Raise _ => None
    end
  else None.

Section Effects.
Variable math_log : Z -> Q.

(** Lines 86-159 with the block that writes the summary file: the payload
    returned and the file written. *)
Definition build_report_and_summary (writable : bool) (st : tally) (g : rng)
  : result (payload * option (list (list cell))) :=
  let '(tag_counts, total_rows, processed_rows) := st in
  let top_tags := select_top_tags tag_counts in
  let years := range_from 2023 2026 in
  '(yearly_data, _) <- fill_yearly_data math_log top_tags years g ;;
  '(yearly_totals, yearly_percentages) <-
    fill_percentages top_tags years yearly_data ;;
  let summary :=
    write_summary writable top_tags years yearly_data yearly_totals
      yearly_percentages in
  tag_totals <- fill_tag_totals top_tags years yearly_percentages ;;
  tags_data <- fill_tags_data top_tags years yearly_percentages tag_totals ;;
  let tags_data := sorted Qle_bool average true tags_data in
  total_questions <-
    for_each years (fun d year =>
      t <- getitem yearly_totals year ;; Ok (set d year t)) [] ;;
  Ok (ReportPayload
        {| years := years;
           tags := tags_data;
           total_questions := total_questions;
           meta := {| total_rows := total_rows;
                      processed_rows := processed_rows;
                      unique_tags := len tag_counts;
                      top_tags_count := Z.of_nat (List.length top_tags) |} |},
      summary).

(** [process_csv()] with its effect on [tag_summary.csv]: the early returns
    leave the file as it was. *)
Definition process_csv_and_summary (fs : option csv_rows) (writable : bool) (g : rng)
  : result (payload * option (list (list cell))) :=
  match fs with
  | None => Ok (ErrorPayload "CSV file not found", None)
  | Some file =>
      match read_rows file with
      | Raise e =>
          Ok (ErrorPayload ("Error reading CSV file: " ++ str e)%string, None)
      | Ok (inl early) => Ok (early, None)
      | Ok (inr st) => build_report_and_summary writable st g
      end
  end.

End Effects.

(** The rows of the summary file for the series of the top tags. *)
Definition summary_of (series : list (string * list Z)) : list (list cell) :=
  summary_header ::
  flat_map (fun j =>
    map (fun '(tag, counts) =>
           [IntCell (2023 + Z.of_nat j); StrCell tag; IntCell (nth j counts 0);
            IntCell (yearly_total j series);
            FloatCell (percentage (nth j counts 0) (yearly_total j series))])
        series) (seq 0 3).

(** The [Count] column of the rows of a year in the summary file. *)
Definition counts_written (year : Z) (written : list (list cell)) : list Z :=
  flat_map (fun row =>
              match row with
              | [IntCell y; StrCell _; IntCell count; IntCell _; FloatCell _] =>
                  if y =? year then [count] else []
              | _ => []
              end) written.

(** ** Further measures and sample inputs *)

(** The sum of the counts of a tally. *)
Definition total_count (tag_counts : dict string Z) : Z :=
  fold_left Z.add (map snd tag_counts) 0.

(** The natural logarithm of 2, 3 and 4, to two decimals. *)
Definition log_in_range (math_log : Z -> Q) : Prop :=
  (0.69 <= math_log 2%Z <= 0.70 /\ 1.09 <= math_log 3%Z <= 1.10
   /\ 1.38 <= math_log 4%Z <= 1.39)%Q.

(** A file with one record: its tag gets the synthetic counts 0, 0, 0. *)
Definition lone_file : csv_rows := [["Tag"]; ["x"]].

Definition lone_report : report :=
  Eval vm_compute in
    match process_csv libm_log (Some lone_file) (constant_rng 0.5) with
    | Ok (ReportPayload r) => r
    | _ => {| years := []; tags := []; total_questions := [];
              meta := {| total_rows := 0; processed_rows := 0;
                         unique_tags := 0; top_tags_count := 0 |} |}
    end.

(** A random source that returns [r] at its first [n] calls and 0 afterwards. *)
Definition rng_until (n : nat) (r : Q) : rng :=
  {| source := fun i => if (i <? n)%nat then r else 0%Q; cursor := 0 |}.

(** * Properties *)

(** ** Numbers *)

Lemma int_floor (x : Q) :
  int x = if 0 <=? Qnum x then Qfloor x else - Qfloor (- x).
Proof.
  destruct x as [n d]; unfold int, Qfloor; cbn [Qnum Qden Qopp].
  destruct (Z.leb_spec 0 n).
  - apply Z.quot_div_nonneg; lia.
  - rewrite <- (Z.opp_involutive n) at 1. rewrite Z.quot_opp_l by lia.
    f_equal. apply Z.quot_div_nonneg; lia.
Qed.


Lemma int_mono_from (z : Z) (x : Q) : 0 <= z -> (inject_Z z <= x)%Q -> z <= int x.
Proof.
  intros Hz Hx. rewrite int_floor.
  assert (0 <= Qnum x).
  { unfold Qle in Hx; cbn in Hx. nia. }
  destruct (Z.leb_spec 0 (Qnum x)); [|lia].
  rewrite <- (Qfloor_Z z). now apply Qfloor_resp_le.
Qed.

Lemma int_nonneg (x : Q) : (0 <= x)%Q -> 0 <= int x.
Proof. intros. now apply (int_mono_from 0). Qed.

Lemma int_ge_1 (x : Q) : (1 <= x)%Q -> 1 <= int x.
Proof. intros. now apply (int_mono_from 1). Qed.

(** ** Growth Synthesizer *)

Section Synthesizer.
Variable math_log : Z -> Q.

(** The three iterations of the loop, written out. *)
Lemma generate_growth_pattern_unfold (base_count : Z) (years : list Z) (g : rng) :
  generate_growth_pattern math_log base_count years g =
  (map (fun i =>
     if base_count >? 1500 then
       int (inject_Z base_count * (0.4 + math_log (Z.of_nat i + 2)%Z * 0.3)
            * (0.95 + (1.05 - 0.95) * upcoming g i))
     else if base_count >? 800 then
       int (inject_Z base_count
            * (0.4 + inject_Z (Z.of_nat i) * 0.18
               + (-0.05 + (0.05 - -0.05) * upcoming g i)))
     else
       int (inject_Z base_count
            * (0.4 + inject_Z (Z.of_nat i) * 0.15
               + (-0.1 + (0.15 - -0.1) * upcoming g i)))) (seq 0 3),
   {| source := source g; cursor := 3 + cursor g |})%Q.
Proof.
  unfold generate_growth_pattern.
  destruct (base_count >? 1500); [|destruct (base_count >? 800)]; reflexivity.
Qed.

Lemma generate_growth_pattern_length base_count years g :
  List.length (fst (generate_growth_pattern math_log base_count years g)) = 3%nat.
Proof. now rewrite generate_growth_pattern_unfold. Qed.

(** C9: the [years] argument is never read: two calls that differ only in
    it, from the same state of the random source, return the same three
    values (and leave the source in the same state). *)
Theorem generate_growth_pattern_ignores_years :
  forall (base_count : Z) (years1 years2 : list Z) (g : rng),
    generate_growth_pattern math_log base_count years1 g =
    generate_growth_pattern math_log base_count years2 g
    /\ List.length (fst (generate_growth_pattern math_log base_count years1 g)) = 3%nat.
Proof.
  intros. split.
  - now rewrite !generate_growth_pattern_unfold.
  - apply generate_growth_pattern_length.
Qed.



Lemma generate_growth_pattern_bounds :
  forall (base_count : Z) (years : list Z) (g : rng),
    0 <= base_count ->
    valid_rng g ->
    log_nonneg math_log ->
    let counts := fst (generate_growth_pattern math_log base_count years g) in
    List.length counts = 3%nat
    /\ Forall (fun count => 0 <= count) counts
    /\ (4 <= base_count -> Forall (fun count => 0 < count) counts).
Proof.
  intros base_count years g Hb V L counts. subst counts.
  rewrite generate_growth_pattern_unfold. cbn [fst].
  split; [reflexivity|].
  assert (Hq : (0 <= inject_Z base_count)%Q) by (unfold Qle; cbn; lia).
  assert (R : forall i, (0 <= upcoming g i /\ upcoming g i < 1)%Q)
    by (intros i; apply V).
  assert (L' : forall i : nat, (i < 3)%nat -> (0 <= math_log (Z.of_nat i + 2))%Q)
    by (intros i Hi; apply L; lia).
  assert (I : forall i : nat, (0 <= inject_Z (Z.of_nat i))%Q)
    by (intros i; unfold Qle; cbn; lia).
  split; [|intros H4; assert (H4q : (4 <= inject_Z base_count)%Q)
                        by (unfold Qle; cbn; lia)];
    apply Forall_map, Forall_forall; intros i Hi; apply in_seq in Hi;
    destruct (R i); pose proof (L' i ltac:(lia)); pose proof (I i).
  - destruct (base_count >? 1500); [|destruct (base_count >? 800)];
      apply int_nonneg; repeat apply Qmult_le_0_compat; try assumption; lra.
  - destruct (Z.gtb_spec base_count 1500); [|destruct (Z.gtb_spec base_count 800)];
      match goal with |- 0 < ?c => enough (1 <= c) by lia end;
      apply int_ge_1;
      match goal with
      | |- (1 <= ?b * ?x * ?v)%Q => assert (1 <= b * x)%Q by nra; nra
      | |- (1 <= ?b * ?x)%Q => assert (0.3 <= x)%Q by lra; nra
      end.
Qed.

(** C2, amended: for a base count of at least 0 the synthesizer returns
    exactly 3 integers, none negative, and all positive as soon as the base
    count is at least 4. *)
Theorem generate_growth_pattern_counts :
  forall (base_count : Z) (years : list Z) (g : rng),
    0 <= base_count ->
    valid_rng g ->
    log_nonneg math_log ->
    let counts := fst (generate_growth_pattern math_log base_count years g) in
    List.length counts = 3%nat
    /\ Forall (fun count => 0 <= count) counts
    /\ (4 <= base_count -> Forall (fun count => 0 < count) counts).
Proof. exact generate_growth_pattern_bounds. Qed.

Lemma generate_growth_pattern_valid base_count years g :
  valid_rng g -> valid_rng (snd (generate_growth_pattern math_log base_count years g)).
Proof. intros V. rewrite generate_growth_pattern_unfold. exact V. Qed.

End Synthesizer.


(** ** Dictionaries *)

Section DictFacts.
Context {K V : Type} `{Key K}.
Implicit Types (d : dict K V) (k : K) (v : V).

Lemma key_eqb_refl k : key_eqb k k = true.
Proof. now destruct (key_eqb_spec k k). Qed.

Lemma key_eqb_neq k k' : k <> k' -> key_eqb k k' = false.
Proof. now destruct (key_eqb_spec k k'). Qed.

Lemma get_set_same d k v : get (set d k v) k = Some v.
Proof.
  induction d as [|[k' v'] d IH]; cbn.
  - now rewrite key_eqb_refl.
  - destruct (key_eqb_spec k k') as [->|N]; cbn.
    + now rewrite key_eqb_refl.
    + now rewrite key_eqb_neq by assumption.
Qed.

Lemma get_set_other d k k' v : k <> k' -> get (set d k v) k' = get d k'.
Proof.
  intros N. induction d as [|[k0 v0] d IH]; cbn.
  - rewrite key_eqb_neq; congruence.
  - destruct (key_eqb_spec k k0) as [->|N0]; cbn.
    + rewrite !key_eqb_neq; congruence.
    + now rewrite IH.
Qed.

Lemma get_None d k : get d k = None <-> ~ In k (keys d).
Proof.
  induction d as [|[k' v'] d IH]; cbn.
  - tauto.
  - destruct (key_eqb_spec k k') as [->|N].
    + split; [discriminate | tauto].
    + rewrite IH. intuition congruence.
Qed.

Lemma get_Some_In d k v : get d k = Some v -> In (k, v) d.
Proof.
  induction d as [|[k' v'] d IH]; cbn; [discriminate|].
  destruct (key_eqb_spec k k') as [->|N].
  - intros [= ->]. now left.
  - auto.
Qed.

Lemma get_In d k v : NoDup (keys d) -> In (k, v) d -> get d k = Some v.
Proof.
  induction d as [|[k' v'] d IH]; cbn; [intros _ []|].
  intros ND [[= -> ->]|I].
  - now rewrite key_eqb_refl.
  - inversion ND as [|? ? N ND']; subst.
    rewrite key_eqb_neq; [auto|].
    intros ->. apply N. change k' with (fst (k', v)). now apply in_map.
Qed.

Lemma set_fresh d k v : ~ In k (keys d) -> set d k v = d ++ [(k, v)].
Proof.
  induction d as [|[k' v'] d IH]; cbn; [reflexivity|].
  intros N. rewrite key_eqb_neq by intuition congruence. f_equal. apply IH. tauto.
Qed.

Lemma keys_set_present d k v : In k (keys d) -> keys (set d k v) = keys d.
Proof.
  induction d as [|[k' v'] d IH]; cbn; [tauto|].
  destruct (key_eqb_spec k k') as [->|N]; cbn; [reflexivity|].
  intros [E|I]; [congruence|]. f_equal. now apply IH.
Qed.

Lemma keys_set d k v :
  keys (set d k v) = keys d \/ (~ In k (keys d) /\ keys (set d k v) = keys d ++ [k]).
Proof.
  destruct (get d k) eqn:E.
  - left. apply keys_set_present. destruct (get_None d k) as [_ G].
    destruct (in_dec (fun a b => reflect_dec _ _ (key_eqb_spec a b)) k (keys d));
      [assumption|].
    rewrite G in E; [discriminate | assumption].
  - right. apply get_None in E. split; [assumption|].
    rewrite set_fresh by assumption. unfold keys. now rewrite map_app.
Qed.

Lemma NoDup_keys_set d k v : NoDup (keys d) -> NoDup (keys (set d k v)).
Proof.
  intros ND. destruct (keys_set d k v) as [->|[N ->]]; [assumption|].
  apply NoDup_app; [assumption | repeat constructor; intros [] | ].
  intros x I [<-|[]]. contradiction.
Qed.

Lemma In_keys_set d k v k' : In k' (keys (set d k v)) <-> k' = k \/ In k' (keys d).
Proof.
  induction d as [|[k0 v0] d IH]; cbn.
  - intuition congruence.
  - destruct (key_eqb_spec k k0) as [->|N]; cbn.
    + intuition congruence.
    + unfold keys in IH. rewrite IH. intuition congruence.
Qed.

Lemma length_set d k v :
  List.length (set d k v) =
  match get d k with Some _ => List.length d | None => S (List.length d) end.
Proof.
  induction d as [|[k0 v0] d IH]; cbn; [reflexivity|].
  destruct (key_eqb_spec k k0) as [->|N]; cbn; [reflexivity|].
  rewrite IH. now destruct (get d k).
Qed.
End DictFacts.

(** ** CSV Aggregator *)

Lemma get_increment_same tag_counts tag :
  get (increment tag_counts tag) tag =
  Some (match get tag_counts tag with Some n => n + 1 | None => 1 end).
Proof.
  unfold increment. destruct (get tag_counts tag); now rewrite get_set_same.
Qed.

Lemma get_increment_other tag_counts tag tag' :
  tag <> tag' -> get (increment tag_counts tag) tag' = get tag_counts tag'.
Proof.
  intros N. unfold increment. destruct (get tag_counts tag); now rewrite get_set_other.
Qed.

Lemma keys_increment tag_counts tag :
  keys (increment tag_counts tag) =
  if in_dec string_dec tag (keys tag_counts) then keys tag_counts
  else keys tag_counts ++ [tag].
Proof.
  unfold increment.
  destruct (in_dec string_dec tag (keys tag_counts)) as [I|N].
  - destruct (get tag_counts tag); now apply keys_set_present.
  - pose proof (proj2 (get_None tag_counts tag) N) as E. rewrite E.
    rewrite set_fresh by assumption. unfold keys. now rewrite map_app.
Qed.

Lemma NoDup_keys_increment tag_counts tag :
  NoDup (keys tag_counts) -> NoDup (keys (increment tag_counts tag)).
Proof.
  unfold increment. destruct (get tag_counts tag); apply NoDup_keys_set.
Qed.

Lemma length_increment tag_counts tag :
  (List.length tag_counts <= List.length (increment tag_counts tag))%nat
  /\ (1 <= List.length (increment tag_counts tag))%nat.
Proof.
  unfold increment.
  destruct (get tag_counts tag) eqn:E; rewrite length_set, E.
  - split; [lia|]. destruct tag_counts; [discriminate | cbn; lia].
  - lia.
Qed.

Lemma get_fold_increment seen : forall tag_counts tag,
  get (fold_left increment seen tag_counts) tag =
  match get tag_counts tag with
  | Some n => Some (n + occurrences tag seen)
  | None => if occurrences tag seen =? 0 then None else Some (occurrences tag seen)
  end.
Proof.
  unfold occurrences.
  induction seen as [|t seen IH]; intros tag_counts tag; cbn [fold_left count_occ].
  - destruct (get tag_counts tag); [f_equal; lia | reflexivity].
  - rewrite IH. destruct (string_dec t tag) as [->|N].
    + rewrite get_increment_same.
      destruct (get tag_counts tag); [f_equal; lia|].
      destruct (Z.eqb_spec (Z.of_nat (S (count_occ string_dec seen tag))) 0); [lia|].
      f_equal; lia.
    + now rewrite get_increment_other.
Qed.

Lemma get_tally_of seen tag :
  get (tally_of seen) tag =
  if occurrences tag seen =? 0 then None else Some (occurrences tag seen).
Proof. unfold tally_of. now rewrite get_fold_increment. Qed.

Lemma NoDup_keys_tally_of seen : NoDup (keys (tally_of seen)).
Proof.
  unfold tally_of.
  assert (G : forall d : dict string Z,
             NoDup (keys d) -> NoDup (keys (fold_left increment seen d))).
  { induction seen as [|t seen IH]; intros d ND; cbn; [assumption|].
    now apply IH, NoDup_keys_increment. }
  apply G. constructor.
Qed.

Lemma tally_of_snoc seen tag : tally_of (seen ++ [tag]) = increment (tally_of seen) tag.
Proof. unfold tally_of. now rewrite fold_left_app. Qed.

Lemma In_keys_tally_of seen tag : In tag (keys (tally_of seen)) <-> In tag seen.
Proof.
  induction seen as [|t seen IH] using rev_ind.
  - reflexivity.
  - rewrite tally_of_snoc, keys_increment, in_app_iff.
    destruct (in_dec string_dec t (keys (tally_of seen))) as [I|N].
    + rewrite IH. split; [tauto|]. intros [?|[<-|[]]]; [assumption|]. now apply IH.
    + rewrite in_app_iff, IH. reflexivity.
Qed.

Lemma seen_tags_cons row rows :
  seen_tags (row :: rows) = seen_tags [row] ++ seen_tags rows.
Proof. unfold seen_tags. cbn [flat_map]. now rewrite app_nil_r. Qed.

(** The effect of one row. *)
Lemma count_row_step (tag_counts : dict string Z) (total_rows processed_rows : Z) row :
  get row "Tag" <> Some None ->
  count_row (tag_counts, total_rows, processed_rows) row =
  Ok (fold_left increment (seen_tags [row]) tag_counts,
      total_rows + 1,
      processed_rows + (if contributes row then 1 else 0)).
Proof.
  intros N. unfold count_row, seen_tags, contributes, trimmed_tag, getitem.
  cbn [flat_map]. rewrite app_nil_r.
  destruct (get row "Tag") as [[s|]|]; cbn.
  - destruct (is_empty (strip s)); cbn; do 2 f_equal; lia.
  - congruence.
  - do 2 f_equal; lia.
Qed.

Lemma count_rows rows :
  forall (tag_counts : dict string Z) (total_rows processed_rows : Z),
  Forall (fun row => get row "Tag" <> Some None) rows ->
  for_each rows count_row (tag_counts, total_rows, processed_rows) =
  Ok (fold_left increment (seen_tags rows) tag_counts,
      total_rows + Z.of_nat (List.length rows),
      processed_rows + Z.of_nat (List.length (filter contributes rows))).
Proof.
  induction rows as [|row rows IH]; intros tag_counts total_rows processed_rows F.
  - cbn. now rewrite !Z.add_0_r.
  - inversion F as [|? ? N F']; subst.
    cbn [for_each]. rewrite count_row_step by assumption. cbn [bind].
    rewrite IH by assumption.
    rewrite (seen_tags_cons row rows), fold_left_app. cbn [filter].
    destruct (contributes row); cbn [List.length]; f_equal; f_equal;
      [f_equal| |f_equal|]; lia.
Qed.

Lemma length_seen_tags rows :
  List.length (seen_tags rows) = List.length (filter contributes rows).
Proof.
  induction rows as [|row rows IH]; [reflexivity|].
  rewrite seen_tags_cons, length_app, IH. cbn [filter].
  unfold seen_tags, contributes. cbn [flat_map]. rewrite app_nil_r.
  destruct (trimmed_tag row) as [tag|]; [|reflexivity].
  now destruct (is_empty tag).
Qed.

Lemma is_empty_spec s : is_empty s = true <-> s = "".
Proof. destruct s; cbn; split; congruence. Qed.


(** ** Sorting *)

Lemma precedes_cons {A : Type} (a b x : A) l : precedes a b l -> precedes a b (x :: l).
Proof. intros (l1 & l2 & l3 & ->). now exists (x :: l1), l2, l3. Qed.

Lemma precedes_head {A : Type} (a b : A) l : In b l -> precedes a b (a :: l).
Proof.
  intros I. apply in_split in I as (l2 & l3 & ->). now exists [], l2, l3.
Qed.

Lemma precedes_inv {A : Type} (a b x : A) l :
  precedes a b (x :: l) -> (a = x /\ In b l) \/ precedes a b l.
Proof.
  intros ([|y l1] & l2 & l3 & E); cbn in E; injection E as -> ->.
  - left. split; [reflexivity|]. apply in_or_app. right. now left.
  - right. now exists l1, l2, l3.
Qed.


Lemma precedes_nth_error {A : Type} (a b : A) l :
  precedes a b l <->
  exists i j, (i < j)%nat /\ nth_error l i = Some a /\ nth_error l j = Some b.
Proof.
  split.
  - intros (l1 & l2 & l3 & ->).
    exists (List.length l1), (List.length l1 + S (List.length l2))%nat.
    split; [lia|]. split.
    + rewrite nth_error_app2, Nat.sub_diag by lia. reflexivity.
    + rewrite nth_error_app2 by lia.
      replace (List.length l1 + S (List.length l2) - List.length l1)%nat
        with (S (List.length l2)) by lia.
      cbn. rewrite nth_error_app2, Nat.sub_diag by lia. reflexivity.
  - revert l. intros l (i & j & Hij & Hi & Hj). revert l j Hij Hi Hj.
    induction i as [|i IH]; intros [|x l] j Hij Hi Hj; try discriminate.
    + injection Hi as ->. destruct j as [|j]; [lia|]. cbn in Hj.
      apply precedes_head. eapply nth_error_In; eassumption.
    + destruct j as [|j]; [lia|]. apply precedes_cons.
      apply (IH l j); [lia | assumption | assumption].
Qed.


Lemma precedes_map {A B : Type} (f : A -> B) (a b : A) l :
  precedes a b l -> precedes (f a) (f b) (map f l).
Proof.
  intros (l1 & l2 & l3 & ->). exists (map f l1), (map f l2), (map f l3).
  now rewrite !map_app, !map_cons, !map_app.
Qed.

Lemma StronglySorted_impl {A : Type} (R R' : A -> A -> Prop) l :
  (forall a b, R a b -> R' a b) -> StronglySorted R l -> StronglySorted R' l.
Proof.
  intros I. induction 1 as [|a l S IH F]; constructor.
  - assumption.
  - eapply Forall_impl; [|exact F]. apply I.
Qed.

Lemma In_firstn {A : Type} (x : A) n l : In x (firstn n l) -> In x l.
Proof.
  intros I. rewrite <- (firstn_skipn n l). apply in_or_app. now left.
Qed.



Section SortingFacts.
Context {A T : Type} (le : T -> T -> bool) (key : A -> T) (reverse : bool).
Hypothesis le_total : forall x y, le x y = true \/ le y x = true.
Hypothesis le_trans : forall x y z, le x y = true -> le y z = true -> le x z = true.

#[local] Abbreviation before := (goes_before le key reverse).
#[local] Abbreviation ins := (insert le key reverse).
#[local] Abbreviation srt := (sorted le key reverse).

Lemma goes_before_total x y : before x y = true \/ before y x = true.
Proof. unfold goes_before. destruct reverse; apply le_total. Qed.

Lemma goes_before_trans x y z :
  before x y = true -> before y z = true -> before x z = true.
Proof. unfold goes_before. destruct reverse; eauto. Qed.

Lemma insert_perm x l : Permutation (ins x l) (x :: l).
Proof.
  induction l as [|y l IH]; cbn; [reflexivity|].
  destruct (before x y); [reflexivity|].
  rewrite IH. apply perm_swap.
Qed.

Lemma sorted_perm l : Permutation (srt l) l.
Proof.
  induction l as [|x l IH]; cbn; [reflexivity|].
  rewrite insert_perm. now constructor.
Qed.

Lemma sorted_length l : List.length (srt l) = List.length l.
Proof. apply Permutation_length, sorted_perm. Qed.

Lemma insert_sorted x l :
  StronglySorted (fun a b => before a b = true) l ->
  StronglySorted (fun a b => before a b = true) (ins x l).
Proof.
  induction 1 as [|y l S IH F]; cbn.
  - repeat constructor.
  - destruct (before x y) eqn:E.
    + constructor; [now constructor|]. constructor; [assumption|].
      eapply Forall_impl; [|exact F]. intros z. now apply goes_before_trans.
    + constructor; [assumption|].
      assert (Hyx : before y x = true)
        by (destruct (goes_before_total x y); congruence).
      eapply Permutation_Forall; [symmetry; apply insert_perm|].
      now constructor.
Qed.

Lemma sorted_sorted l : StronglySorted (fun a b => before a b = true) (srt l).
Proof.
  induction l as [|x l IH]; cbn; [constructor | now apply insert_sorted].
Qed.

(** Stability: an element that comes out before another one although the
    order would accept them the other way round was already before it. *)
Lemma insert_stable x a b l :
  precedes a b (ins x l) -> before b a = true ->
  (a = x /\ In b l) \/ precedes a b l.
Proof.
  induction l as [|y l IH]; cbn; intros P Hba.
  - destruct P as ([|? [|]] & l2 & l3 & E); cbn in E; try discriminate.
    injection E as -> E. now destruct l2.
  - destruct (before x y) eqn:E.
    + now apply precedes_inv in P.
    + apply precedes_inv in P as [[-> I]|P].
      * (* y first, [b] in [ins x l] *)
        apply (Permutation_in _ (insert_perm x l)) in I as [<-|I].
        -- congruence.
        -- right. now apply precedes_head.
      * destruct (IH P Hba) as [[-> I]|P'].
        -- left. split; [reflexivity | now right].
        -- right. now apply precedes_cons.
Qed.

Lemma sorted_stable a b l :
  precedes a b (srt l) -> before b a = true -> precedes a b l.
Proof.
  revert a b. induction l as [|x l IH]; cbn; intros a b P Hba.
  - destruct P as ([|] & ? & ? & E); discriminate.
  - apply insert_stable in P as [[-> I]|P]; [| |assumption].
    + apply precedes_head. now apply (Permutation_in _ (sorted_perm l)).
    + apply precedes_cons. now apply IH.
Qed.

End SortingFacts.








Lemma length_tally_of seen :
  List.length (tally_of seen) = List.length (nodup string_dec seen).
Proof.
  rewrite <- (length_map fst (tally_of seen)).
  apply Permutation_length, NoDup_Permutation.
  - apply NoDup_keys_tally_of.
  - apply NoDup_nodup.
  - intros tag. rewrite nodup_In. apply In_keys_tally_of.
Qed.

Lemma select_top_tags_eq tag_counts :
  select_top_tags tag_counts = firstn 10 (sorted Z.leb snd true tag_counts).
Proof.
  unfold select_top_tags, items. rewrite <- (map_id (firstn _ _)) at 2.
  apply map_ext. now intros [tag count].
Qed.

Lemma In_tally_of seen tag count :
  In (tag, count) (tally_of seen) -> count = occurrences tag seen /\ In tag seen.
Proof.
  intros I.
  pose proof (get_In (tally_of seen) tag count (NoDup_keys_tally_of seen) I) as G.
  rewrite get_tally_of in G.
  split.
  - destruct (occurrences tag seen =? 0); congruence.
  - apply In_keys_tally_of. change tag with (fst (tag, count)). now apply in_map.
Qed.


(** A row whose tag cell is [None] stops the loop with an [AttributeError]. *)
Lemma count_row_None st row :
  get row "Tag" = Some None ->
  count_row st row =
  Raise (AttributeError "'NoneType' object has no attribute 'strip'").
Proof.
  intros E. destruct st as [[tag_counts total_rows] processed_rows].
  unfold count_row, getitem. now rewrite E.
Qed.

Lemma count_rows_abort rows : forall st,
  Exists (fun row => get row "Tag" = Some None) rows ->
  for_each rows count_row st =
  Raise (AttributeError "'NoneType' object has no attribute 'strip'").
Proof.
  induction rows as [|row rows IH]; intros st X; [inversion X|].
  cbn [for_each].
  destruct (get row "Tag") as [[s|]|] eqn:E.
  - destruct st as [[tag_counts total_rows] processed_rows].
    rewrite count_row_step by congruence. cbn [bind]. apply IH.
    inversion X; subst; [congruence | assumption].
  - now rewrite count_row_None.
  - destruct st as [[tag_counts total_rows] processed_rows].
    rewrite count_row_step by congruence. cbn [bind]. apply IH.
    inversion X; subst; [congruence | assumption].
Qed.

Lemma count_rows_inv rows tag_counts total_rows processed_rows st :
  for_each rows count_row (tag_counts, total_rows, processed_rows) = Ok st ->
  Forall (fun row => get row "Tag" <> Some None) rows
  /\ st = (fold_left increment (seen_tags rows) tag_counts,
           total_rows + Z.of_nat (List.length rows),
           processed_rows + Z.of_nat (List.length (filter contributes rows))).
Proof.
  intros E.
  assert (F : Forall (fun row => get row "Tag" <> Some None) rows).
  { apply Forall_forall. intros row I N.
    rewrite count_rows_abort in E; [discriminate|].
    apply Exists_exists. eauto. }
  split; [assumption|]. rewrite count_rows in E by assumption. congruence.
Qed.


(** What the rows of a file with a [Tag] column amount to. *)
Lemma read_rows_header fields rows :
  read_rows (fields :: rows) =
  if existsb (String.eqb "Tag") fields then
    match for_each (DictReader (fields :: rows)) count_row ([], 0, 0) with
    | Ok (tag_counts, total_rows, processed_rows) =>
        if processed_rows =? 0
        then Ok (inl (ErrorPayload "No valid data found in CSV"))
        else Ok (inr (tag_counts, total_rows, processed_rows))
    | Raise e => Raise e
    end
  else Ok (inl (ErrorPayload "Invalid CSV structure")).
Proof.
  unfold read_rows. cbn [fieldnames hd_error bind forallb key_eqb string_Key].
  rewrite andb_true_r.
  destruct (existsb (String.eqb "Tag") fields); cbn [negb]; [|reflexivity].
  destruct (for_each _ count_row _) as [[[tag_counts total_rows] processed_rows]|e];
    reflexivity.
Qed.

Lemma existsb_Tag fields : existsb (String.eqb "Tag") fields = true <-> In "Tag" fields.
Proof.
  rewrite existsb_exists. split.
  - intros (x & I & E). apply String.eqb_eq in E. now subst.
  - intros I. exists "Tag". split; [assumption | apply String.eqb_refl].
Qed.

Lemma read_rows_tally file tag_counts total_rows processed_rows :
  read_rows file = Ok (inr (tag_counts, total_rows, processed_rows)) ->
  let rows := DictReader file in
  tag_counts = tally_of (seen_tags rows)
  /\ total_rows = Z.of_nat (List.length rows)
  /\ processed_rows = Z.of_nat (List.length (seen_tags rows))
  /\ processed_rows <> 0.
Proof.
  destruct file as [|fields rows0]; [discriminate|].
  rewrite read_rows_header.
  destruct (existsb _ fields); [|discriminate].
  destruct (for_each _ count_row _) as [[[tc tr] pr]|e] eqn:E; [|discriminate].
  destruct (Z.eqb_spec pr 0); [discriminate|].
  intros [= <- <- <-] rows. apply count_rows_inv in E as [_ [= -> -> ->]].
  fold rows in n |- *. rewrite length_seen_tags.
  repeat split; try assumption; try reflexivity; lia.
Qed.

Lemma read_rows_early file p :
  read_rows file = Ok (inl p) -> exists msg, p = ErrorPayload msg.
Proof.
  destruct file as [|fields rows0]; [discriminate|].
  rewrite read_rows_header.
  destruct (existsb _ fields); [|intros [= <-]; eauto].
  destruct (for_each _ count_row _) as [[[tc tr] pr]|e]; [|discriminate].
  destruct (pr =? 0); [intros [= <-]; eauto | discriminate].
Qed.

(** ** Report Builder *)

Lemma years_eq : range_from 2023 2026 = [2023; 2024; 2025].
Proof. reflexivity. Qed.

Section ReportFacts.
Variable math_log : Z -> Q.

Lemma synthesize_keys top_tags g :
  map fst (synthesize math_log top_tags years3 g) = map fst top_tags.
Proof.
  revert g. induction top_tags as [|[tag base_count] rest IH]; intros g; cbn;
    [reflexivity|].
  destruct (generate_growth_pattern _ _ _ _) as [counts g']. cbn. now rewrite IH.
Qed.

Lemma synthesize_lengths top_tags g :
  Forall (fun entry => List.length (snd entry) = 3%nat)
         (synthesize math_log top_tags years3 g).
Proof.
  revert g. induction top_tags as [|[tag base_count] rest IH]; intros g; cbn;
    [constructor|].
  pose proof (generate_growth_pattern_length math_log base_count years3 g) as L.
  destruct (generate_growth_pattern _ _ _ _) as [counts g'].
  constructor; [exact L | apply IH].
Qed.

Lemma fill_yearly_data_loop top_tags : forall g (c0 c1 c2 : dict string Z),
  NoDup (map fst top_tags) ->
  (forall tag, In tag (map fst top_tags) ->
     ~ In tag (keys c0) /\ ~ In tag (keys c1) /\ ~ In tag (keys c2)) ->
  exists g',
    for_each top_tags (fun '(yearly_data, g) '(tag, base_count) =>
      let '(counts, g) := generate_growth_pattern math_log base_count years3 g in
      yearly_data <-
        for_each (enumerate years3) (fun yearly_data '(year_index, year) =>
          count <- list_getitem counts year_index ;;
          of_year <- getitem yearly_data year ;;
          Ok (set yearly_data year (set of_year tag count))) yearly_data ;;
      Ok (yearly_data, g)) ([(2023, c0); (2024, c1); (2025, c2)], g)
    = Ok ([(2023, c0 ++ column 0 (synthesize math_log top_tags years3 g));
           (2024, c1 ++ column 1 (synthesize math_log top_tags years3 g));
           (2025, c2 ++ column 2 (synthesize math_log top_tags years3 g))], g').
Proof.
  induction top_tags as [|[tag base_count] rest IH]; intros g c0 c1 c2 ND F.
  - exists g. cbn. now rewrite !app_nil_r.
  - cbn [for_each synthesize].
    pose proof (generate_growth_pattern_length math_log base_count years3 g) as L.
    destruct (generate_growth_pattern _ _ _ _) as [counts g1].
    destruct counts as [|x0 [|x1 [|x2 [|]]]]; try discriminate. clear L.
    destruct (F tag (or_introl eq_refl)) as (N0 & N1 & N2).
    inversion ND as [|? ? NI ND']; subst.
    destruct (IH g1 (c0 ++ [(tag, x0)]) (c1 ++ [(tag, x1)]) (c2 ++ [(tag, x2)]) ND')
      as [g' E].
    { intros tag' I. destruct (F tag' (or_intror I)) as (M0 & M1 & M2).
      unfold keys. rewrite !map_app, !in_app_iff. cbn.
      assert (tag <> tag') by (intros ->; contradiction).
      tauto. }
    exists g'. cbn. rewrite !set_fresh by assumption.
    rewrite <- !app_assoc in E. exact E.
Qed.

Lemma fill_yearly_data_closed top_tags g :
  NoDup (map fst top_tags) ->
  exists g',
    fill_yearly_data math_log top_tags years3 g =
    Ok ([(2023, column 0 (synthesize math_log top_tags years3 g));
         (2024, column 1 (synthesize math_log top_tags years3 g));
         (2025, column 2 (synthesize math_log top_tags years3 g))], g').
Proof.
  intros ND. unfold fill_yearly_data. cbn [fold_left].
  apply (fill_yearly_data_loop top_tags g [] [] [] ND). intros; cbn; tauto.
Qed.

Lemma set_get_same {K V : Type} `{Key K} (d : dict K V) k v :
  get d k = Some v -> set d k v = d.
Proof.
  induction d as [|[k' v'] d IH]; cbn; [discriminate|].
  destruct (key_eqb_spec k k') as [->|N].
  - now intros [= ->].
  - intros E. now rewrite IH.
Qed.

Lemma set_set {K V : Type} `{Key K} (d : dict K V) k v v' :
  set (set d k v) k v' = set d k v'.
Proof.
  induction d as [|[k0 v0] d IH]; cbn.
  - now rewrite key_eqb_refl.
  - destruct (key_eqb_spec k k0) as [->|N]; cbn.
    + now rewrite key_eqb_refl.
    + rewrite key_eqb_neq by assumption. now rewrite IH.
Qed.

Lemma get_column j series tag counts :
  NoDup (map fst series) -> In (tag, counts) series ->
  get (column j series) tag = Some (nth j counts 0).
Proof.
  intros ND I. apply get_In.
  - unfold keys, column. rewrite map_map.
    erewrite map_ext; [exact ND|]. now intros [].
  - unfold column. apply in_map_iff. now exists (tag, counts).
Qed.

Section YearLoops.
Variables (yearly_data : dict Z (dict string Z)) (year : Z) (j : nat).
Variable series : list (string * list Z).
Hypothesis year_column : get yearly_data year = Some (column j series).
Hypothesis series_NoDup : NoDup (map fst series).

Lemma total_loop (top_tags : list (string * Z)) (sub : list (string * list Z)) :
  forall total_questions,
  map fst top_tags = map fst sub ->
  incl sub series ->
  for_each top_tags (fun total_questions '(tag, _) =>
    of_year <- getitem yearly_data year ;;
    count <- getitem of_year tag ;;
    Ok (total_questions + count)) total_questions
  = Ok (fold_left Z.add (year_counts j sub) total_questions).
Proof.
  revert sub. induction top_tags as [|[tag base] rest IH];
    intros [|[tag' counts] sub] total E I; try discriminate; [reflexivity|].
  injection E as <- E.
  cbn [for_each]. unfold getitem at 1 2. rewrite year_column. cbn [bind].
  rewrite (get_column j series tag counts series_NoDup) by (apply I; now left).
  cbn [bind]. rewrite (IH sub); [reflexivity | assumption |].
  intros x Ix. apply I. now right.
Qed.

Lemma percentage_loop (top_tags : list (string * Z)) (sub : list (string * list Z))
    total_questions :
  forall (yearly_percentages : dict Z (dict string Q)) (of_year : dict string Q),
  map fst top_tags = map fst sub ->
  incl sub series ->
  NoDup (map fst top_tags) ->
  (forall tag, In tag (map fst top_tags) -> ~ In tag (keys of_year)) ->
  get yearly_percentages year = Some of_year ->
  for_each top_tags (fun yearly_percentages '(tag, _) =>
    of_year <- getitem yearly_data year ;;
    tag_count <- getitem of_year tag ;;
    pct_of_year <- getitem yearly_percentages year ;;
    Ok (set yearly_percentages year
            (set pct_of_year tag
               (round (if total_questions >? 0
                       then (inject_Z tag_count / inject_Z total_questions * 100)%Q
                       else 0%Q) 2)))) yearly_percentages
  = Ok (set yearly_percentages year
          (of_year ++ map (fun '(tag, counts) =>
                             (tag, percentage (nth j counts 0) total_questions)) sub)).
Proof.
  revert sub. induction top_tags as [|[tag base] rest IH];
    intros [|[tag' counts] sub] yp of_year E I ND F G; try discriminate.
  - cbn. now rewrite app_nil_r, set_get_same.
  - injection E as <- E. inversion ND as [|? ? NI ND']; subst.
    cbn [for_each]. unfold getitem at 1 2 3. rewrite year_column. cbn [bind].
    rewrite (get_column j series tag counts series_NoDup) by (apply I; now left).
    cbn [bind]. rewrite G. cbn [bind].
    rewrite (set_fresh of_year tag) by (apply F; now left).
    rewrite (IH sub _ (of_year ++ [(tag, percentage (nth j counts 0) total_questions)]));
      try assumption.
    + rewrite set_set, <- app_assoc. reflexivity.
    + intros x Ix. apply I. now right.
    + intros tag' I'. unfold keys. rewrite map_app, in_app_iff. cbn.
      intros [M|[<-|[]]]; [|contradiction].
      revert M. apply F. now right.
    + apply get_set_same.
Qed.
End YearLoops.


Lemma percentages_eq series : percentages series = map (pct_entry series) series.
Proof. reflexivity. Qed.

Lemma fill_percentages_closed (top_tags : list (string * Z)) series :
  map fst top_tags = map fst series ->
  NoDup (map fst series) ->
  fill_percentages top_tags years3
    [(2023, column 0 series); (2024, column 1 series); (2025, column 2 series)]
  = Ok ([(2023, yearly_total 0 series); (2024, yearly_total 1 series);
         (2025, yearly_total 2 series)],
        [(2023, pct_column 0 series); (2024, pct_column 1 series);
         (2025, pct_column 2 series)]).
Proof.
  intros E ND.
  assert (ND' : NoDup (map fst top_tags)) by (now rewrite E).
  unfold fill_percentages.
  cbn [fold_left for_each set key_eqb Z_Key Z.eqb Pos.eqb].
  set (yd := [(2023, column 0 series); (2024, column 1 series); (2025, column 2 series)]).
  rewrite (total_loop yd 2023 0 series eq_refl ND top_tags series 0 E (incl_refl _)).
  fold (yearly_total 0 series). cbn [bind].
  rewrite (percentage_loop yd 2023 0 series eq_refl ND top_tags series
             (yearly_total 0 series) [(2023, []); (2024, []); (2025, [])] []
             E (incl_refl _) ND' (fun _ _ F => F) eq_refl).
  fold (pct_column 0 series).
  cbn [bind set key_eqb Z_Key Z.eqb Pos.eqb app].
  rewrite (total_loop yd 2024 1 series eq_refl ND top_tags series 0 E (incl_refl _)).
  fold (yearly_total 1 series). cbn [bind].
  rewrite (percentage_loop yd 2024 1 series eq_refl ND top_tags series
             (yearly_total 1 series)
             [(2023, pct_column 0 series); (2024, []); (2025, [])] []
             E (incl_refl _) ND' (fun _ _ F => F) eq_refl).
  fold (pct_column 1 series).
  cbn [bind set key_eqb Z_Key Z.eqb Pos.eqb app].
  rewrite (total_loop yd 2025 2 series eq_refl ND top_tags series 0 E (incl_refl _)).
  fold (yearly_total 2 series). cbn [bind].
  rewrite (percentage_loop yd 2025 2 series eq_refl ND top_tags series
             (yearly_total 2 series)
             [(2023, pct_column 0 series); (2024, pct_column 1 series); (2025, [])] []
             E (incl_refl _) ND' (fun _ _ F => F) eq_refl).
  reflexivity.
Qed.


Lemma get_pct_column j series tag counts :
  NoDup (map fst series) -> In (tag, counts) series ->
  get (pct_column j series) tag
  = Some (percentage (nth j counts 0) (yearly_total j series)).
Proof.
  intros ND I. apply get_In.
  - unfold keys, pct_column. rewrite map_map.
    erewrite map_ext; [exact ND|]. now intros [].
  - unfold pct_column. apply in_map_iff. now exists (tag, counts).
Qed.

Lemma percentages_of_closed series tag counts :
  NoDup (map fst series) -> In (tag, counts) series ->
  percentages_of [(2023, pct_column 0 series); (2024, pct_column 1 series);
                  (2025, pct_column 2 series)] years3 tag
  = Ok (snd (pct_entry series (tag, counts))).
Proof.
  intros ND I. unfold percentages_of, getitem.
  cbn [for_each get key_eqb Z_Key Z.eqb Pos.eqb bind].
  rewrite !(get_pct_column _ series tag counts ND I). reflexivity.
Qed.

Lemma fill_tag_totals_loop (top_tags : list (string * Z)) series sub :
  forall tag_totals : dict string Q,
  map fst top_tags = map fst sub ->
  incl sub series ->
  NoDup (map fst series) ->
  NoDup (map fst top_tags) ->
  (forall tag, In tag (map fst top_tags) -> ~ In tag (keys tag_totals)) ->
  for_each top_tags (fun tag_totals '(tag, _) =>
    ps <- percentages_of [(2023, pct_column 0 series); (2024, pct_column 1 series);
                          (2025, pct_column 2 series)] years3 tag ;;
    Ok (set tag_totals tag
            (round (sum ps / inject_Z (Z.of_nat (List.length years3))) 2)))
    tag_totals
  = Ok (tag_totals
        ++ map (fun entry => (name (series_of (pct_entry series entry)),
                              average (series_of (pct_entry series entry)))) sub).
Proof.
  revert sub. induction top_tags as [|[tag base] rest IH];
    intros [|[tag' counts] sub] tag_totals E I ND ND' F; try discriminate.
  - cbn. now rewrite app_nil_r.
  - injection E as <- E. inversion ND' as [|? ? NI ND'']; subst.
    cbn [for_each].
    rewrite (percentages_of_closed series tag counts ND) by (apply I; now left).
    cbn [bind]. rewrite set_fresh by (apply F; now left).
    rewrite (IH sub); try assumption.
    + now rewrite <- app_assoc.
    + intros x Ix. apply I. now right.
    + intros tag' I'. unfold keys. rewrite map_app, in_app_iff. cbn.
      intros [M|[<-|[]]]; [|contradiction].
      revert M. apply F. now right.
Qed.

Lemma fill_tags_data_loop (top_tags : list (string * Z)) series sub :
  forall tags_data : list tag_series,
  map fst top_tags = map fst sub ->
  incl sub series ->
  NoDup (map fst series) ->
  for_each top_tags (fun tags_data '(tag, _) =>
    percentages <-
      percentages_of [(2023, pct_column 0 series); (2024, pct_column 1 series);
                      (2025, pct_column 2 series)] years3 tag ;;
    avg <- getitem
             (map (fun entry => (name (series_of (pct_entry series entry)),
                                 average (series_of (pct_entry series entry))))
                  series) tag ;;
    Ok (tags_data ++ [{| name := tag; data := percentages; average := avg |}]))
    tags_data
  = Ok (tags_data ++ map (fun entry => series_of (pct_entry series entry)) sub).
Proof.
  revert sub. induction top_tags as [|[tag base] rest IH];
    intros [|[tag' counts] sub] tags_data E I ND; try discriminate.
  - cbn. now rewrite app_nil_r.
  - injection E as <- E.
    cbn [for_each].
    rewrite (percentages_of_closed series tag counts ND) by (apply I; now left).
    cbn [bind]. unfold getitem.
    erewrite get_In; cycle 1.
    + unfold keys. rewrite map_map. erewrite map_ext; [exact ND|]. now intros [].
    + apply in_map_iff. exists (tag, counts). split; [reflexivity|]. apply I. now left.
    + cbn [bind]. rewrite (IH sub); try assumption.
      * now rewrite <- app_assoc.
      * intros x Ix. apply I. now right.
Qed.

Lemma NoDup_firstn {A : Type} n (l : list A) : NoDup l -> NoDup (firstn n l).
Proof.
  intros ND. rewrite <- (firstn_skipn n l) in ND. now apply NoDup_app_remove_r in ND.
Qed.

Lemma NoDup_select_top_tags (tag_counts : dict string Z) :
  NoDup (keys tag_counts) -> NoDup (map fst (select_top_tags tag_counts)).
Proof.
  intros ND. rewrite select_top_tags_eq, <- firstn_map. apply NoDup_firstn.
  eapply Permutation_NoDup; [|exact ND].
  apply Permutation_map, Permutation_sym, sorted_perm.
Qed.

(** The report, in closed form. *)
Lemma build_report_closed (tag_counts : dict string Z) (total_rows processed_rows : Z) g :
  NoDup (keys tag_counts) ->
  let top_tags := select_top_tags tag_counts in
  let series := synthesize math_log top_tags years3 g in
  build_report math_log (tag_counts, total_rows, processed_rows) g =
  Ok (ReportPayload
        {| years := years3;
           tags := sorted Qle_bool average true (map series_of (percentages series));
           total_questions :=
             [(2023, yearly_total 0 series); (2024, yearly_total 1 series);
              (2025, yearly_total 2 series)];
           meta := {| total_rows := total_rows;
                      processed_rows := processed_rows;
                      unique_tags := len tag_counts;
                      top_tags_count := Z.of_nat (List.length top_tags) |} |}).
Proof.
  intros ND top_tags series.
  pose proof (NoDup_select_top_tags tag_counts ND) as NDt. fold top_tags in NDt.
  pose proof (synthesize_keys top_tags g) as K. fold series in K.
  assert (NDs : NoDup (map fst series)) by (now rewrite K).
  unfold build_report. fold top_tags. rewrite years_eq.
  destruct (fill_yearly_data_closed top_tags g NDt) as [g' ->]. fold series.
  cbn [bind].
  rewrite (fill_percentages_closed top_tags series (eq_sym K) NDs). cbn [bind].
  unfold fill_tag_totals.
  rewrite (fill_tag_totals_loop top_tags series series [] (eq_sym K) (incl_refl _)
             NDs NDt (fun _ _ F => F)).
  cbn [bind app]. unfold fill_tags_data.
  rewrite (fill_tags_data_loop top_tags series series [] (eq_sym K) (incl_refl _) NDs).
  cbn [bind app]. rewrite <- map_map, <- percentages_eq.
  reflexivity.
Qed.

End ReportFacts.

(** ** The pipeline *)

Section PipelineFacts.
Variable math_log : Z -> Q.

(** A run that returns a report returns this one. *)
Lemma process_csv_report fs g r :
  process_csv math_log fs g = Ok (ReportPayload r) ->
  exists file,
    fs = Some file
    /\ seen_tags (DictReader file) <> []
    /\ r = {| years := years3;
              tags := sorted Qle_bool average true
                        (map series_of
                           (percentages
                              (synthesize math_log (top_tags_of file) years3 g)));
              total_questions :=
                [(2023, yearly_total 0 (synthesize math_log (top_tags_of file) years3 g));
                 (2024, yearly_total 1 (synthesize math_log (top_tags_of file) years3 g));
                 (2025, yearly_total 2 (synthesize math_log (top_tags_of file) years3 g))];
              meta :=
                {| total_rows := Z.of_nat (List.length (DictReader file));
                   processed_rows := Z.of_nat (List.length (seen_tags (DictReader file)));
                   unique_tags := len (tally_of (seen_tags (DictReader file)));
                   top_tags_count := Z.of_nat (List.length (top_tags_of file)) |} |}.
Proof.
  destruct fs as [file|]; [|discriminate]. cbn [process_csv].
  destruct (read_rows file) as [[early|[[tag_counts total_rows] processed_rows]]|e] eqn:E.
  - apply read_rows_early in E as [msg ->]. discriminate.
  - apply read_rows_tally in E as (-> & -> & -> & NZ).
    rewrite build_report_closed by apply NoDup_keys_tally_of.
    intros [= <-]. exists file. split; [reflexivity|]. split; [|reflexivity].
    intros Z. rewrite Z in NZ. now apply NZ.
  - discriminate.
Qed.

(** [process_csv] returns: no exception leaves it. *)
Lemma process_csv_returns fs g : exists data, process_csv math_log fs g = Ok data.
Proof.
  destruct fs as [file|]; cbn [process_csv]; [|eauto].
  destruct (read_rows file) as [[early|[[tag_counts total_rows] processed_rows]]|e] eqn:E;
    [eauto | | eauto].
  apply read_rows_tally in E as (-> & _).
  rewrite build_report_closed by apply NoDup_keys_tally_of. eauto.
Qed.

Lemma length_top_tags_of file :
  List.length (top_tags_of file)
  = Nat.min 10 (List.length (tally_of (seen_tags (DictReader file)))).
Proof.
  unfold top_tags_of. rewrite select_top_tags_eq, length_firstn.
  now rewrite sorted_length.
Qed.

(** C10: the metadata of every report. *)
Theorem report_metadata :
  forall (fs : option csv_rows) (g : rng) (r : report),
    process_csv math_log fs g = Ok (ReportPayload r) ->
    top_tags_count (meta r) = Z.min 10 (unique_tags (meta r))
    /\ 1 <= unique_tags (meta r)
    /\ 1 <= processed_rows (meta r)
    /\ processed_rows (meta r) <= total_rows (meta r)
    /\ years r = [2023; 2024; 2025].
Proof.
  intros fs g r E. apply process_csv_report in E as (file & -> & NE & ->).
  cbn [meta years top_tags_count unique_tags processed_rows total_rows].
  set (rows := DictReader file) in *.
  assert (L : (1 <= List.length (seen_tags rows))%nat).
  { destruct (seen_tags rows); [congruence | cbn; lia]. }
  assert (U : (1 <= List.length (tally_of (seen_tags rows)))%nat).
  { rewrite length_tally_of. destruct (seen_tags rows) as [|t l] eqn:S; [congruence|].
    assert (I : In t (nodup string_dec (t :: l))) by (apply nodup_In; now left).
    destruct (nodup string_dec (t :: l)); [contradiction | cbn; lia]. }
  repeat split.
  - rewrite length_top_tags_of. unfold len. fold rows. lia.
  - unfold len. lia.
  - lia.
  - rewrite length_seen_tags. pose proof (filter_length_le contributes rows). lia.
Qed.


End PipelineFacts.

(** ** Rounding and sums *)

#[export] Instance round_half_even_Proper : Proper (Qeq ==> eq) round_half_even.
Proof.
  intros x y E. unfold round_half_even.
  rewrite (Qfloor_comp x y E).
  assert (C : (x - inject_Z (Qfloor y) ?= 1 # 2)%Q = (y - inject_Z (Qfloor y) ?= 1 # 2)%Q)
    by (now rewrite E).
  now rewrite C.
Qed.

Lemma round_half_even_error (x : Q) :
  (Qabs (inject_Z (round_half_even x) - x) <= 1 # 2)%Q.
Proof.
  unfold round_half_even.
  pose proof (Qfloor_le x) as L. pose proof (Qlt_floor x) as U.
  rewrite inject_Z_plus in U. change (inject_Z 1) with 1%Q in U.
  apply Qabs_Qle_condition.
  destruct (x - inject_Z (Qfloor x) ?= 1 # 2)%Q eqn:C.
  - apply Qeq_alt in C.
    destruct (Z.even (Qfloor x)); rewrite ?inject_Z_plus;
      change (inject_Z 1) with 1%Q; split; lra.
  - apply Qlt_alt in C. split; lra.
  - apply Qgt_alt in C. rewrite inject_Z_plus.
    change (inject_Z 1) with 1%Q. split; lra.
Qed.

Lemma round_2 (x : Q) : round x 2 = round_half_even (x * 100) # 100.
Proof. reflexivity. Qed.

#[export] Instance round_Proper : Proper (Qeq ==> eq ==> eq) round.
Proof.
  intros x y E n ? <-. unfold round. destruct n; now rewrite E.
Qed.

Lemma round_2_error (x : Q) : (Qabs (round x 2 - x) <= 1 # 200)%Q.
Proof.
  rewrite round_2. pose proof (round_half_even_error (x * 100)) as H.
  apply Qabs_Qle_condition in H. apply Qabs_Qle_condition.
  rewrite (Qmake_Qdiv (round_half_even (x * 100)) 100).
  set (z := inject_Z (round_half_even (x * 100))) in *.
  change (inject_Z (Z.pos 100)) with 100%Q.
  unfold Qdiv. change (/ 100)%Q with (1 # 100)%Q. split; lra.
Qed.

(** [sum] against the usual right fold. *)
Lemma sum_from (l : list Q) : forall a, (fold_left Qplus l a == a + sum l)%Q.
Proof.
  unfold sum. induction l as [|x l IH]; intros a; cbn [fold_left].
  - ring.
  - rewrite (IH (a + x)%Q), (IH (0 + x)%Q). ring.
Qed.

Lemma sum_cons x l : (sum (x :: l) == x + sum l)%Q.
Proof. unfold sum at 1. cbn [fold_left]. rewrite sum_from. ring. Qed.

Lemma sum_Permutation l l' : Permutation l l' -> (sum l == sum l')%Q.
Proof.
  induction 1 as [|x l l' P IH|x y l|l1 l2 l3 P1 IH1 P2 IH2].
  - reflexivity.
  - now rewrite !sum_cons, IH.
  - rewrite !sum_cons. ring.
  - now rewrite IH1.
Qed.

Lemma fold_left_Zadd (l : list Z) :
  forall a, fold_left Z.add l a = a + fold_left Z.add l 0.
Proof.
  induction l as [|x l IH]; intros a; cbn [fold_left]; [lia|].
  rewrite (IH (a + x)), (IH (0 + x)). lia.
Qed.

Lemma fold_left_Zadd_nonneg (l : list Z) :
  Forall (fun x => 0 <= x) l -> 0 <= fold_left Z.add l 0.
Proof.
  induction 1 as [|x l Hx F IH]; cbn [fold_left]; [lia|].
  rewrite fold_left_Zadd. lia.
Qed.

(** The percentages of one year: their sum is within one half of a hundredth
    per tag of the exact share of the counts in the total. *)
Lemma sum_percentages (total_questions : Z) (counts : list Z) :
  0 < total_questions ->
  (Qabs (sum (map (fun c => percentage c total_questions) counts)
         - inject_Z (fold_left Z.add counts 0%Z) / inject_Z total_questions * 100)
   <= inject_Z (Z.of_nat (List.length counts)) * (1 # 200))%Q.
Proof.
  intros T.
  assert (Tq : ~ (inject_Z total_questions == 0)%Q).
  { unfold Qeq. cbn. lia. }
  induction counts as [|c counts IH].
  - apply Qabs_Qle_condition. cbn [map List.length fold_left Z.of_nat].
    change (inject_Z 0) with 0%Q. unfold sum; cbn [fold_left].
    unfold Qdiv. rewrite !Qmult_0_l. split; lra.
  - cbn [map List.length fold_left]. rewrite sum_cons, fold_left_Zadd.
    rewrite !inject_Z_plus, Nat2Z.inj_succ, <- Z.add_1_r, inject_Z_plus.
    change (inject_Z 1) with 1%Q. change (inject_Z 0) with 0%Q.
    pose proof (round_2_error (inject_Z c / inject_Z total_questions * 100)) as R.
    unfold percentage at 1.
    destruct (Z.gtb_spec total_questions 0) as [_|]; [|lia].
    apply Qabs_Qle_condition in R, IH. apply Qabs_Qle_condition.
    set (p := round _ 2) in *. set (s := sum _) in *.
    set (n := inject_Z (Z.of_nat _)) in *.
    assert (D : ((0 + inject_Z c + inject_Z (fold_left Z.add counts 0%Z))
                 / inject_Z total_questions * 100
                 == inject_Z c / inject_Z total_questions * 100
                    + inject_Z (fold_left Z.add counts 0%Z) / inject_Z total_questions * 100)%Q)
      by (field; exact Tq).
    rewrite D. split; lra.
Qed.

(** ** Percentages and averages of the report *)

Lemma In_select_top_tags (tag_counts : dict string Z) entry :
  In entry (select_top_tags tag_counts) -> In entry tag_counts.
Proof.
  rewrite select_top_tags_eq. intros I. apply In_firstn in I.
  now apply (Permutation_in _ (sorted_perm _ _ _ _)) in I.
Qed.

Lemma top_tags_of_nonneg file : Forall (fun entry => 0 <= snd entry) (top_tags_of file).
Proof.
  apply Forall_forall. intros [tag count] I.
  apply In_select_top_tags, In_tally_of in I as [-> _].
  unfold occurrences. cbn. lia.
Qed.

Lemma length_top_tags_of_le file : (List.length (top_tags_of file) <= 10)%nat.
Proof. rewrite length_top_tags_of. lia. Qed.

Section ReportNumbers.
Variable math_log : Z -> Q.
Hypothesis log_ok : log_nonneg math_log.

Lemma synthesize_nonneg top_tags : forall g,
  valid_rng g ->
  Forall (fun entry => 0 <= snd entry) top_tags ->
  Forall (fun entry => Forall (fun count => 0 <= count) (snd entry))
         (synthesize math_log top_tags years3 g).
Proof.
  induction top_tags as [|[tag base_count] rest IH]; intros g V F; cbn [synthesize].
  - constructor.
  - inversion F as [|? ? B F']; subst. cbn in B.
    pose proof (generate_growth_pattern_bounds math_log base_count years3 g B V log_ok)
      as (_ & N & _).
    pose proof (generate_growth_pattern_valid math_log base_count years3 g V) as V'.
    destruct (generate_growth_pattern _ _ _ _) as [counts g'].
    constructor; [exact N | now apply IH].
Qed.

Lemma year_counts_nonneg j series :
  Forall (fun entry => Forall (fun count => 0 <= count) (snd entry)) series ->
  Forall (fun count => 0 <= count) (year_counts j series).
Proof.
  intros F. unfold year_counts. apply Forall_map.
  eapply Forall_impl; [|exact F]. intros [tag counts] N. cbn in N.
  destruct (nth_in_or_default j counts 0) as [I| ->]; [|lia].
  revert I. now apply Forall_forall.
Qed.

End ReportNumbers.

Lemma synthesize_length math_log top_tags g :
  List.length (synthesize math_log top_tags years3 g) = List.length top_tags.
Proof. now rewrite <- (length_map fst), synthesize_keys, length_map. Qed.

(** The percentages of the year of index [j], in the order of the series. *)
Lemma data_of_percentages (j : nat) series : (j < 3)%nat ->
  map (fun t => nth j (data t) 0%Q) (map series_of (percentages series))
  = map (fun c => percentage c (yearly_total j series)) (year_counts j series).
Proof.
  intros Hj. unfold percentages, year_counts. rewrite !map_map.
  apply map_ext. intros [tag counts]. cbn [series_of data].
  destruct j as [|[|[|]]]; try reflexivity; lia.
Qed.

Section PercentageSum.
Variable math_log : Z -> Q.

(** C3: in every year whose total is not zero, the rounded percentages of the
    top tags sum to 100 within 0.1. *)
Theorem yearly_percentages_sum :
  forall (fs : option csv_rows) (g : rng) (r : report),
    valid_rng g ->
    log_nonneg math_log ->
    process_csv math_log fs g = Ok (ReportPayload r) ->
    forall (j : nat) (year total : Z),
      nth_error (years r) j = Some year ->
      get (total_questions r) year = Some total ->
      total <> 0 ->
      (Qabs (sum (map (fun t => nth j (data t) 0) (tags r)) - 100) <= 0.1)%Q.
Proof.
  intros fs g r V L E j year total Hy Ht NZ.
  apply process_csv_report in E as (file & -> & _ & ->).
  cbn [years tags total_questions] in *.
  set (series := synthesize math_log (top_tags_of file) years3 g) in *.
  assert (Hj : (j < 3)%nat)
    by (apply (proj1 (nth_error_Some years3 j)); congruence).
  assert (T : total = yearly_total j series).
  { destruct j as [|[|[|]]]; try lia; cbn [nth_error] in Hy; injection Hy as <-;
      cbn [get key_eqb Z_Key Z.eqb Pos.eqb] in Ht; now injection Ht as <-. }
  subst total.
  assert (N : Forall (fun count => 0 <= count) (year_counts j series)).
  { apply year_counts_nonneg, synthesize_nonneg; try assumption.
    apply top_tags_of_nonneg. }
  assert (P : 0 < yearly_total j series).
  { pose proof (fold_left_Zadd_nonneg _ N). unfold yearly_total in *. lia. }
  rewrite (sum_Permutation _ _
             (Permutation_map _ (sorted_perm Qle_bool average true _))).
  rewrite data_of_percentages by assumption.
  pose proof (sum_percentages (yearly_total j series) (year_counts j series) P) as B.
  fold (yearly_total j series) in B.
  assert (Len : (List.length (year_counts j series) <= 10)%nat).
  { unfold year_counts. rewrite length_map. unfold series.
    rewrite synthesize_length. apply length_top_tags_of_le. }
  assert (Lq : (inject_Z (Z.of_nat (List.length (year_counts j series))) <= 10)%Q).
  { unfold Qle. cbn [Qnum Qden inject_Z]. lia. }
  assert (D : (inject_Z (yearly_total j series) / inject_Z (yearly_total j series) * 100
               == 100)%Q).
  { field. unfold Qeq. cbn [Qnum Qden inject_Z]. lia. }
  rewrite D in B.
  apply Qabs_Qle_condition in B. apply Qabs_Qle_condition.
  split; lra.
Qed.

End PercentageSum.

Lemma Qle_bool_total x y : Qle_bool x y = true \/ Qle_bool y x = true.
Proof.
  rewrite !Qle_bool_iff. destruct (Qlt_le_dec x y) as [L|L]; [left|right]; lra.
Qed.

Lemma Qle_bool_trans x y z :
  Qle_bool x y = true -> Qle_bool y z = true -> Qle_bool x z = true.
Proof. rewrite !Qle_bool_iff. apply Qle_trans. Qed.

Lemma names_of_percentages series :
  map name (map series_of (percentages series)) = map fst series.
Proof.
  unfold percentages. rewrite !map_map. apply map_ext. now intros [tag counts].
Qed.

Lemma series_of_entry series entry :
  let t := series_of (pct_entry series entry) in
  exists p0 p1 p2,
    data t = [p0; p1; p2]
    /\ Forall two_decimals (data t)
    /\ average t = round ((p0 + p1 + p2) / 3) 2.
Proof.
  destruct entry as [tag counts]. cbn [pct_entry series_of map seq].
  do 3 eexists. split; [reflexivity|]. split.
  - repeat constructor; eexists; reflexivity.
  - cbn [average]. apply round_Proper; [|reflexivity].
    unfold sum. cbn [fold_left]. apply Qdiv_comp; [ring | reflexivity].
Qed.

Section Averages.
Variable math_log : Z -> Q.

(** C8: the average of a tag is the mean of its three rounded yearly
    percentages, rounded to 2 decimals; the tags of the report are in
    descending order of average, tied tags in the order of the top-tag list. *)
Theorem tags_sorted_by_average :
  forall (file : csv_rows) (g : rng) (r : report),
    process_csv math_log (Some file) g = Ok (ReportPayload r) ->
    Forall (fun t =>
              exists p0 p1 p2,
                data t = [p0; p1; p2]
                /\ Forall two_decimals (data t)
                /\ average t = round ((p0 + p1 + p2) / 3) 2) (tags r)
    /\ StronglySorted (fun a b => (average b <= average a)%Q) (tags r)
    /\ Permutation (map name (tags r)) (map fst (top_tags_of file))
    /\ (forall a b,
          precedes a b (tags r) -> (average a == average b)%Q ->
          precedes (name a) (name b) (map fst (top_tags_of file))).
Proof.
  intros file g r E.
  apply process_csv_report in E as (file' & [= <-] & _ & ->).
  cbn [tags].
  set (series := synthesize math_log (top_tags_of file) years3 g).
  pose proof (sorted_perm Qle_bool average true (map series_of (percentages series)))
    as P.
  pose proof (synthesize_keys math_log (top_tags_of file) g) as K. fold series in K.
  repeat split.
  - eapply Permutation_Forall; [symmetry; exact P|].
    rewrite percentages_eq, map_map. apply Forall_map, Forall_forall.
    intros entry _. apply series_of_entry.
  - eapply StronglySorted_impl;
      [|apply (sorted_sorted Qle_bool average true Qle_bool_total Qle_bool_trans)].
    cbn. intros a b. now rewrite Qle_bool_iff.
  - rewrite P, names_of_percentages. now rewrite K.
  - intros a b Pab T. apply sorted_stable in Pab.
    + apply (precedes_map name) in Pab.
      now rewrite names_of_percentages, K in Pab.
    + cbn. apply Qle_bool_iff. rewrite T. apply Qle_refl.
Qed.

End Averages.

(** ** The sample inputs *)

Lemma constant_rng_valid (r : Q) : (0 <= r)%Q -> (r < 1)%Q -> valid_rng (constant_rng r).
Proof. intros L U n. now split. Qed.

Lemma libm_log_nonneg : log_nonneg libm_log.
Proof.
  intros n Hn.
  assert (C : n = 2 \/ n = 3 \/ n = 4) by lia.
  destruct C as [-> | [-> | ->]]; discriminate.
Qed.

Lemma sample_report_eq :
  process_csv libm_log (Some sample_file) (constant_rng 0.5)
  = Ok (ReportPayload sample_report).
Proof. vm_compute. reflexivity. Qed.

(** The example of the specification: Python falls in Tier A and Go in
    Tier C, and Python comes first in the report. *)
Example sample_report_tags :
  top_tags_of sample_file = [("Python", 2000); ("Go", 600)]
  /\ map name (tags sample_report) = ["Python"; "Go"]
  /\ total_questions sample_report = [(2023, 1470); (2024, 1804); (2025, 2066)].
Proof. vm_compute. repeat split. Qed.

Example strip_example : strip "  machine learning  " = "machine learning".
Proof. reflexivity. Qed.

Example short_row_example :
  DictReader_row ["Id"; "Tag"] ["2"] = [("Id", Some "2"); ("Tag", None)].
Proof. reflexivity. Qed.

Example mixed_file_tally :
  read_rows mixed_file = Ok (inr ([("python", 2); ("go", 1); ("rust", 1)], 5, 4)).
Proof. reflexivity. Qed.

(** The tiers at their boundaries, every draw being 0.5. *)
Example tier_boundaries :
  map (fun base_count =>
         fst (generate_growth_pattern libm_log base_count years3 (constant_rng 0.5)))
      [1501; 1500; 801; 800]
  = [[912; 1095; 1224]; [600; 870; 1140]; [320; 464; 608]; [340; 460; 580]].
Proof. vm_compute. reflexivity. Qed.

(** C1: a record that stops before the [Tag] column is not skipped: the
    reader gives its tag cell the value [None], [strip] raises an
    [AttributeError], which the handler of the loop does not catch, and the
    whole aggregation ends with an error payload although the two other
    records carry a tag. *)
Theorem short_row_aborts_aggregation :
  forall (math_log : Z -> Q) (g : rng),
    nth_error (DictReader short_row_file) 1 = Some [("Id", Some "2"); ("Tag", None)]
    /\ List.length (filter contributes (DictReader short_row_file)) = 2%nat
    /\ process_csv math_log (Some short_row_file) g
       = Ok (ErrorPayload
               "Error reading CSV file: 'NoneType' object has no attribute 'strip'").
Proof. intros math_log g. repeat split. Qed.

(** The base count 0, which is at least 0, yields three zeros: the synthesizer
    does not return 3 positive integers for it. *)
Lemma generate_growth_pattern_zero_base :
  0 <= 0
  /\ valid_rng (constant_rng 0.5)
  /\ fst (generate_growth_pattern libm_log 0 [2023; 2024; 2025] (constant_rng 0.5))
     = [0; 0; 0]
  /\ ~ (List.length (fst (generate_growth_pattern libm_log 0 [2023; 2024; 2025]
                            (constant_rng 0.5))) = 3%nat
        /\ Forall (fun count => 0 < count)
             (fst (generate_growth_pattern libm_log 0 [2023; 2024; 2025]
                     (constant_rng 0.5)))).
Proof.
  assert (E : fst (generate_growth_pattern libm_log 0 [2023; 2024; 2025]
                     (constant_rng 0.5)) = [0; 0; 0]) by (vm_compute; reflexivity).
  rewrite E. split; [lia|].
  split; [apply constant_rng_valid; [discriminate | reflexivity]|].
  split; [reflexivity|].
  intros [_ F]. apply Forall_inv in F. lia.
Qed.

Lemma generate_growth_pattern_counts_witness :
  0 <= 4
  /\ valid_rng (constant_rng 0)
  /\ log_nonneg libm_log
  /\ (let counts :=
        fst (generate_growth_pattern libm_log 4 [2023; 2024; 2025] (constant_rng 0)) in
      List.length counts = 3%nat
      /\ Forall (fun count => 0 <= count) counts
      /\ (4 <= 4 -> Forall (fun count => 0 < count) counts)).
Proof.
  assert (B : 0 <= 4) by lia.
  assert (V : valid_rng (constant_rng 0))
    by (apply constant_rng_valid; [discriminate | reflexivity]).
  split; [exact B|]. split; [exact V|]. split; [exact libm_log_nonneg|].
  apply (generate_growth_pattern_counts libm_log 4 [2023; 2024; 2025]
           (constant_rng 0) B V libm_log_nonneg).
Defined.


Lemma yearly_percentages_sum_witness :
  valid_rng (constant_rng 0.5)
  /\ log_nonneg libm_log
  /\ process_csv libm_log (Some sample_file) (constant_rng 0.5)
     = Ok (ReportPayload sample_report)
  /\ nth_error (years sample_report) 0 = Some 2023
  /\ get (total_questions sample_report) 2023 = Some 1470
  /\ 1470 <> 0
  /\ (Qabs (sum (map (fun t => nth 0 (data t) 0) (tags sample_report)) - 100) <= 0.1)%Q.
Proof.
  assert (V : valid_rng (constant_rng 0.5))
    by (apply constant_rng_valid; [discriminate | reflexivity]).
  assert (Y : nth_error (years sample_report) 0 = Some 2023) by reflexivity.
  assert (T : get (total_questions sample_report) 2023 = Some 1470) by reflexivity.
  assert (N : 1470 <> 0) by lia.
  split; [exact V|]. split; [exact libm_log_nonneg|].
  split; [exact sample_report_eq|]. split; [exact Y|]. split; [exact T|].
  split; [exact N|].
  apply (yearly_percentages_sum libm_log (Some sample_file) (constant_rng 0.5)
           sample_report V libm_log_nonneg sample_report_eq 0%nat 2023 1470 Y T N).
Defined.



Lemma tags_sorted_by_average_witness :
  process_csv libm_log (Some sample_file) (constant_rng 0.5)
  = Ok (ReportPayload sample_report)
  /\ Forall (fun t =>
               exists p0 p1 p2,
                 data t = [p0; p1; p2]
                 /\ Forall two_decimals (data t)
                 /\ average t = round ((p0 + p1 + p2) / 3) 2) (tags sample_report)
  /\ StronglySorted (fun a b => (average b <= average a)%Q) (tags sample_report)
  /\ Permutation (map name (tags sample_report)) (map fst (top_tags_of sample_file))
  /\ (forall a b,
        precedes a b (tags sample_report) -> (average a == average b)%Q ->
        precedes (name a) (name b) (map fst (top_tags_of sample_file))).
Proof.
  split; [exact sample_report_eq|].
  apply (tags_sorted_by_average libm_log sample_file (constant_rng 0.5) sample_report
           sample_report_eq).
Defined.

Lemma report_metadata_witness :
  process_csv libm_log (Some sample_file) (constant_rng 0.5)
  = Ok (ReportPayload sample_report)
  /\ top_tags_count (meta sample_report) = Z.min 10 (unique_tags (meta sample_report))
  /\ 1 <= unique_tags (meta sample_report)
  /\ 1 <= processed_rows (meta sample_report)
  /\ processed_rows (meta sample_report) <= total_rows (meta sample_report)
  /\ years sample_report = [2023; 2024; 2025].
Proof.
  split; [exact sample_report_eq|].
  apply (report_metadata libm_log (Some sample_file) (constant_rng 0.5) sample_report
           sample_report_eq).
Defined.

(** * Further properties of the code *)

(** ** The summary file *)

Section SummaryLoop.
Variables (yearly_data : dict Z (dict string Z)) (yearly_totals : dict Z Z).
Variables (yearly_percentages : dict Z (dict string Q)) (year : Z) (j : nat).
Variable series : list (string * list Z).
Hypothesis year_column : get yearly_data year = Some (column j series).
Hypothesis year_total : get yearly_totals year = Some (yearly_total j series).
Hypothesis year_pct : get yearly_percentages year = Some (pct_column j series).
Hypothesis series_NoDup : NoDup (map fst series).

Lemma summary_year_loop (top_tags : list (string * Z)) (sub : list (string * list Z)) :
  forall written : list (list cell),
  map fst top_tags = map fst sub ->
  incl sub series ->
  for_each top_tags (fun written '(tag, _) =>
    of_year <- getitem yearly_data year ;;
    count <- getitem of_year tag ;;
    total <- getitem yearly_totals year ;;
    pct_of_year <- getitem yearly_percentages year ;;
    percentage <- getitem pct_of_year tag ;;
    Ok (written ++ [[IntCell year; StrCell tag; IntCell count; IntCell total;
                     FloatCell percentage]])) written
  = Ok (written
        ++ map (fun '(tag, counts) =>
                  [IntCell year; StrCell tag; IntCell (nth j counts 0);
                   IntCell (yearly_total j series);
                   FloatCell (percentage (nth j counts 0) (yearly_total j series))])
               sub).
Proof.
  revert sub. induction top_tags as [|[tag base] rest IH];
    intros [|[tag' counts] sub] written E I; try discriminate.
  - cbn. now rewrite app_nil_r.
  - injection E as <- E. cbn [for_each]. unfold getitem at 1 2 3 4 5.
    rewrite year_column. cbn [bind].
    rewrite (get_column j series tag counts series_NoDup) by (apply I; now left).
    cbn [bind]. rewrite year_total. cbn [bind]. rewrite year_pct. cbn [bind].
    rewrite (get_pct_column j series tag counts series_NoDup) by (apply I; now left).
    cbn [bind]. rewrite (IH sub); [|assumption|intros x Ix; apply I; now right].
    now rewrite <- app_assoc.
Qed.
End SummaryLoop.

Lemma summary_rows_closed (top_tags : list (string * Z)) series :
  map fst top_tags = map fst series ->
  NoDup (map fst series) ->
  summary_rows top_tags years3
    [(2023, column 0 series); (2024, column 1 series); (2025, column 2 series)]
    [(2023, yearly_total 0 series); (2024, yearly_total 1 series);
     (2025, yearly_total 2 series)]
    [(2023, pct_column 0 series); (2024, pct_column 1 series);
     (2025, pct_column 2 series)]
  = Ok (summary_of series).
Proof.
  intros E ND. unfold summary_rows. cbn [for_each].
  set (yd := [(2023, column 0 series); (2024, column 1 series); (2025, column 2 series)]).
  set (yt := [(2023, yearly_total 0 series); (2024, yearly_total 1 series);
              (2025, yearly_total 2 series)]).
  set (yp := [(2023, pct_column 0 series); (2024, pct_column 1 series);
              (2025, pct_column 2 series)]).
  rewrite (summary_year_loop yd yt yp 2023 0 series eq_refl eq_refl eq_refl ND
             top_tags series _ E (incl_refl _)).
  cbn [bind].
  rewrite (summary_year_loop yd yt yp 2024 1 series eq_refl eq_refl eq_refl ND
             top_tags series _ E (incl_refl _)).
  cbn [bind].
  rewrite (summary_year_loop yd yt yp 2025 2 series eq_refl eq_refl eq_refl ND
             top_tags series _ E (incl_refl _)).
  cbn [bind]. unfold summary_of.
  cbn [flat_map seq app Z.of_nat Z.add Pos.add Pos.of_succ_nat Pos.succ].
  rewrite app_nil_r, <- !app_assoc. reflexivity.
Qed.

Section SummaryFacts.
Variable math_log : Z -> Q.

Lemma build_report_and_summary_closed (writable : bool) (tag_counts : dict string Z)
    (total_rows processed_rows : Z) g :
  NoDup (keys tag_counts) ->
  exists p,
    build_report math_log (tag_counts, total_rows, processed_rows) g = Ok p
    /\ build_report_and_summary math_log writable
         (tag_counts, total_rows, processed_rows) g
       = Ok (p, if writable
                then Some (summary_of
                             (synthesize math_log (select_top_tags tag_counts) years3 g))
                else None).
Proof.
  intros ND. eexists. split; [apply build_report_closed; exact ND|].
  set (top_tags := select_top_tags tag_counts).
  set (series := synthesize math_log top_tags years3 g).
  pose proof (NoDup_select_top_tags tag_counts ND) as NDt. fold top_tags in NDt.
  pose proof (synthesize_keys math_log top_tags g) as K. fold series in K.
  assert (NDs : NoDup (map fst series)) by (now rewrite K).
  unfold build_report_and_summary. fold top_tags. rewrite years_eq.
  destruct (fill_yearly_data_closed math_log top_tags g NDt) as [g' ->]. fold series.
  cbn [bind].
  rewrite (fill_percentages_closed top_tags series (eq_sym K) NDs). cbn [bind].
  unfold write_summary.
  rewrite (summary_rows_closed top_tags series (eq_sym K) NDs).
  unfold fill_tag_totals.
  rewrite (fill_tag_totals_loop top_tags series series [] (eq_sym K) (incl_refl _)
             NDs NDt (fun _ _ F => F)).
  cbn [bind app]. unfold fill_tags_data.
  rewrite (fill_tags_data_loop top_tags series series [] (eq_sym K) (incl_refl _) NDs).
  cbn [bind app]. rewrite <- map_map, <- percentages_eq.
  reflexivity.
Qed.


(** The response does not depend on the summary file: whether or not the file
    can be written [process_csv] returns the same payload, and the file is
    written only when it can be and a report is returned. *)
Theorem summary_keeps_response :
  forall (fs : option csv_rows) (writable : bool) (g : rng),
    exists p s,
      process_csv math_log fs g = Ok p
      /\ process_csv_and_summary math_log fs writable g = Ok (p, s)
      /\ (s <> None <-> writable = true /\ exists r, p = ReportPayload r).
Proof.
  intros fs writable g. destruct fs as [file|]; cbn [process_csv process_csv_and_summary].
  - destruct (read_rows file) as [[early|[[tag_counts total_rows] processed_rows]]|e] eqn:E.
    + apply read_rows_early in E as [msg ->].
      do 2 eexists. split; [reflexivity|]. split; [reflexivity|].
      split; [congruence | intros [_ [r [=]]]].
    + apply read_rows_tally in E as (-> & _).
      destruct (build_report_and_summary_closed writable
                  (tally_of (seen_tags (DictReader file))) total_rows processed_rows g
                  (NoDup_keys_tally_of _)) as (p & B & S).
      exists p. eexists. split; [exact B|]. split; [exact S|].
      rewrite build_report_closed in B by apply NoDup_keys_tally_of.
      injection B as <-.
      destruct writable; split; try congruence; try (intros [[=] _]); eauto.
    + do 2 eexists. split; [reflexivity|]. split; [reflexivity|].
      split; [congruence | intros [_ [r [=]]]].
  - do 2 eexists. split; [reflexivity|]. split; [reflexivity|].
    split; [congruence | intros [_ [r [=]]]].
Qed.

Lemma process_csv_and_summary_report file g r :
  process_csv math_log (Some file) g = Ok (ReportPayload r) ->
  process_csv_and_summary math_log (Some file) true g
  = Ok (ReportPayload r,
        Some (summary_of (synthesize math_log (top_tags_of file) years3 g))).
Proof.
  cbn [process_csv process_csv_and_summary].
  destruct (read_rows file) as [[early|[[tag_counts total_rows] processed_rows]]|e] eqn:E;
    try discriminate.
  - apply read_rows_early in E as [msg ->]. discriminate.
  - apply read_rows_tally in E as (-> & _). intros B.
    destruct (build_report_and_summary_closed true
                (tally_of (seen_tags (DictReader file))) total_rows processed_rows g
                (NoDup_keys_tally_of _)) as (p & B' & S).
    rewrite B in B'. injection B' as <-. exact S.
Qed.



Lemma counts_written_rows year j series :
  counts_written year
    (map (fun '(tag, counts) =>
            [IntCell (2023 + Z.of_nat j); StrCell tag; IntCell (nth j counts 0);
             IntCell (yearly_total j series);
             FloatCell (percentage (nth j counts 0) (yearly_total j series))])
         series)
  = if 2023 + Z.of_nat j =? year then year_counts j series else [].
Proof.
  unfold counts_written, year_counts.
  generalize (yearly_total j series) as total.
  induction series as [|[tag counts] rest IH]; intros total; cbn [map flat_map].
  - now destruct (_ =? _).
  - rewrite IH. now destruct (2023 + Z.of_nat j =? year).
Qed.

Lemma counts_written_app year rows rows' :
  counts_written year (rows ++ rows')
  = counts_written year rows ++ counts_written year rows'.
Proof. apply flat_map_app. Qed.

(** In the summary file the counts of the rows of a year add up to the total
    of that year in the report. *)
Theorem summary_counts_add_up :
  forall (file : csv_rows) (g : rng) (r : report) (year total : Z),
    process_csv math_log (Some file) g = Ok (ReportPayload r) ->
    get (total_questions r) year = Some total ->
    exists written,
      process_csv_and_summary math_log (Some file) true g
      = Ok (ReportPayload r, Some written)
      /\ fold_left Z.add (counts_written year written) 0 = total.
Proof.
  intros file g r year total E T.
  eexists. split; [now apply process_csv_and_summary_report|].
  apply process_csv_report in E as (file' & [= <-] & _ & ->).
  cbn [total_questions] in T.
  set (series := synthesize math_log (top_tags_of file) years3 g) in *.
  assert (C : counts_written year (summary_of series)
              = (if 2023 =? year then year_counts 0 series else [])
                ++ (if 2024 =? year then year_counts 1 series else [])
                ++ (if 2025 =? year then year_counts 2 series else [])).
  { unfold summary_of. cbn [flat_map seq].
    change (counts_written year (summary_header :: ?l)) with (counts_written year l).
    rewrite !counts_written_app.
    rewrite (counts_written_rows year 0 series), (counts_written_rows year 1 series),
      (counts_written_rows year 2 series).
    cbn [counts_written flat_map app]. now rewrite app_nil_r. }
  rewrite C. cbn [get key_eqb Z_Key] in T.
  rewrite (Z.eqb_sym 2023), (Z.eqb_sym 2024), (Z.eqb_sym 2025).
  destruct (Z.eqb_spec year 2023) as [->|N3].
  { injection T as <-. cbn [Z.eqb Pos.eqb app]. now rewrite app_nil_r. }
  destruct (Z.eqb_spec year 2024) as [->|N4].
  { injection T as <-. cbn [Z.eqb Pos.eqb app]. now rewrite app_nil_r. }
  destruct (Z.eqb_spec year 2025) as [->|N5]; [|discriminate].
  injection T as <-. reflexivity.
Qed.

End SummaryFacts.

(** ** The rows of the reader *)

Lemma keys_fold_set_cells (cells : list (string * string)) :
  forall (d : dict string (option string)) k,
  In k (keys (fold_left (fun d '(k, v) => set d k (Some v)) cells d))
  <-> In k (keys d) \/ In k (map fst cells).
Proof.
  induction cells as [|[k0 v0] cells IH]; intros d k; cbn [fold_left map].
  - cbn. tauto.
  - rewrite IH, In_keys_set. cbn. intuition congruence.
Qed.

Lemma get_fold_set_restval (fields : list string) :
  forall (d : dict string (option string)) k,
  get (fold_left (fun d key => set d key restval) fields d) k
  = if in_dec string_dec k fields then Some None else get d k.
Proof.
  induction fields as [|f fields IH]; intros d k; cbn [fold_left].
  - reflexivity.
  - rewrite IH. destruct (in_dec string_dec k fields) as [I|N].
    + destruct (in_dec string_dec k (f :: fields)) as [_|N']; [reflexivity|].
      contradict N'. now right.
    + destruct (string_dec f k) as [->|D].
      * rewrite get_set_same.
        destruct (in_dec string_dec k (k :: fields)) as [_|N']; [reflexivity|].
        contradict N'. now left.
      * rewrite get_set_other by assumption.
        destruct (in_dec string_dec k (f :: fields)) as [[E|I]|_];
          [congruence | contradiction | reflexivity].
Qed.

Lemma map_fst_combine_firstn {A B : Type} (l : list A) (l' : list B) :
  map fst (combine l l') = firstn (List.length l') l.
Proof.
  revert l'. induction l as [|a l IH]; intros [|b l']; cbn; try reflexivity.
  now rewrite IH.
Qed.

(** The cell of a field the record does not reach is [None]; every field
    name is a key of the row. *)
Lemma DictReader_row_short fields row k :
  In k fields -> ~ In k (firstn (List.length row) fields) ->
  get (DictReader_row fields row) k = Some None.
Proof.
  intros I N. unfold DictReader_row. rewrite get_fold_set_restval.
  destruct (in_dec string_dec k (skipn (List.length row) fields)) as [_|N'];
    [reflexivity|].
  rewrite <- (firstn_skipn (List.length row) fields) in I.
  apply in_app_or in I. tauto.
Qed.

Lemma DictReader_row_key fields row k :
  In k fields -> get (DictReader_row fields row) k <> None.
Proof.
  intros I. unfold DictReader_row. rewrite get_fold_set_restval.
  destruct (in_dec string_dec k (skipn (List.length row) fields)) as [_|N];
    [discriminate|].
  rewrite get_None, keys_fold_set_cells, map_fst_combine_firstn.
  rewrite <- (firstn_skipn (List.length row) fields) in I.
  apply in_app_or in I. cbn. tauto.
Qed.

Lemma In_DictReader fields rows d :
  In d (DictReader (fields :: rows)) <->
  exists row, In row rows /\ row <> [] /\ d = DictReader_row fields row.
Proof.
  cbn [DictReader]. rewrite in_map_iff. split.
  - intros (row & <- & I). apply filter_In in I as [I N].
    exists row. repeat split; try assumption. intros ->. discriminate.
  - intros (row & I & N & ->). exists row. split; [reflexivity|].
    apply filter_In. split; [assumption|]. now destruct row.
Qed.

(** Once the header holds [Tag], every row the reader yields has the key
    [Tag]: [row['Tag']] does not raise [KeyError], so the handler of the loop
    is never entered; the row is counted, blank, or stops the loop with the
    [AttributeError] of a [None] cell. *)
Theorem tag_key_always_present :
  forall (fields : list string) (rows : list (list string))
         (row : dict string (option string)) (st : tally),
    In "Tag" fields ->
    In row (DictReader (fields :: rows)) ->
    exists v,
      getitem row "Tag" = Ok v
      /\ count_row st row =
         match v with
         | Some s =>
             let '(tag_counts, total_rows, processed_rows) := st in
             if is_empty (strip s)
             then Ok (tag_counts, total_rows + 1, processed_rows)
             else Ok (increment tag_counts (strip s), total_rows + 1,
                      processed_rows + 1)
         | None =>
             Raise (AttributeError "'NoneType' object has no attribute 'strip'")
         end.
Proof.
  intros fields rows row st T I.
  apply In_DictReader in I as (cells & _ & _ & ->).
  pose proof (DictReader_row_key fields cells "Tag" T) as K.
  destruct st as [[tag_counts total_rows] processed_rows].
  unfold count_row, getitem.
  destruct (get (DictReader_row fields cells) "Tag") as [[s|]|]; [| |congruence].
  - exists (Some s). split; [reflexivity|]. cbn.
    now destruct (is_empty (strip s)).
  - exists None. split; reflexivity.
Qed.

Section AggregatorFacts.
Variable math_log : Z -> Q.

(** A record that ends before the [Tag] column makes [process_csv] return the
    read-error payload, whatever the other records hold. *)
Theorem short_record_aborts :
  forall (fields : list string) (rows : list (list string)) (row : list string)
         (g : rng),
    In "Tag" fields ->
    In row rows ->
    row <> [] ->
    ~ In "Tag" (firstn (List.length row) fields) ->
    process_csv math_log (Some (fields :: rows)) g
    = Ok (ErrorPayload
            "Error reading CSV file: 'NoneType' object has no attribute 'strip'").
Proof.
  intros fields rows row g T I NE S. cbn [process_csv].
  rewrite read_rows_header, (proj2 (existsb_Tag fields) T).
  rewrite count_rows_abort; [reflexivity|].
  apply Exists_exists. exists (DictReader_row fields row). split.
  - apply In_DictReader. eauto.
  - now apply DictReader_row_short.
Qed.


(** GET /api/data always answers with status 200: no exception leaves
    [process_csv], whose lookups in its own tables never fail. *)
Theorem api_data_status :
  forall (fs : option csv_rows) (g : rng),
    status (api_data math_log fs g) = 200
    /\ exists data, process_csv math_log fs g = Ok data
                    /\ body (api_data math_log fs g) = data.
Proof.
  intros fs g. destruct (process_csv_returns math_log fs g) as [data E].
  unfold api_data. rewrite E. cbn. eauto.
Qed.

End AggregatorFacts.

(** ** Trimmed tags *)

Lemma rstrip_idempotent s : rstrip (rstrip s) = rstrip s.
Proof.
  induction s as [|c s IH]; cbn [rstrip]; [reflexivity|].
  destruct (isspace c && is_empty (rstrip s)) eqn:E; [reflexivity|].
  cbn [rstrip]. now rewrite IH, E.
Qed.

Lemma lstrip_rstrip_lstrip s : lstrip (rstrip (lstrip s)) = rstrip (lstrip s).
Proof.
  induction s as [|c s IH]; cbn [lstrip]; [reflexivity|].
  destruct (isspace c) eqn:E; [exact IH|].
  cbn [rstrip]. rewrite E. cbn [andb lstrip]. now rewrite E.
Qed.

Lemma strip_idempotent s : strip (strip s) = strip s.
Proof. unfold strip. now rewrite lstrip_rstrip_lstrip, rstrip_idempotent. Qed.

(** ** The tally *)

Lemma total_count_cons tag n (d : dict string Z) :
  total_count ((tag, n) :: d) = n + total_count d.
Proof. unfold total_count. cbn [map fold_left snd]. rewrite fold_left_Zadd. lia. Qed.

Lemma total_count_set (d : dict string Z) tag v :
  total_count (set d tag v)
  = total_count d + v - match get d tag with Some n => n | None => 0 end.
Proof.
  induction d as [|[k n] d IH]; cbn [get set].
  - rewrite total_count_cons. unfold total_count. cbn. lia.
  - destruct (key_eqb_spec tag k) as [->|N].
    + rewrite !total_count_cons. lia.
    + rewrite !total_count_cons, IH. lia.
Qed.

Lemma total_count_increment (d : dict string Z) tag :
  total_count (increment d tag) = total_count d + 1.
Proof.
  unfold increment. destruct (get d tag) eqn:G; rewrite total_count_set, G; lia.
Qed.

Lemma total_count_tally_of seen : total_count (tally_of seen) = Z.of_nat (List.length seen).
Proof.
  induction seen as [|t seen IH] using rev_ind; [reflexivity|].
  rewrite tally_of_snoc, total_count_increment, IH, length_app. cbn. lia.
Qed.

Lemma In_seen_tags tag rows :
  In tag (seen_tags rows) -> tag = strip tag /\ tag <> "".
Proof.
  unfold seen_tags. intros I. apply in_flat_map in I as (row & _ & I).
  unfold trimmed_tag in I.
  destruct (get row "Tag") as [[s|]|]; try contradiction.
  destruct (is_empty (strip s)) eqn:E; [contradiction|].
  destruct I as [<-|[]]. split; [now rewrite strip_idempotent|].
  intros Z. rewrite Z in E. discriminate.
Qed.

(** The tally the Aggregator hands on: its keys are distinct, trimmed and not
    empty, every count is at least 1, and the counts add up to
    [processed_rows], which does not exceed [total_rows]. *)
Theorem tally_invariants :
  forall (file : csv_rows) (tag_counts : dict string Z) (total_rows processed_rows : Z),
    read_rows file = Ok (inr (tag_counts, total_rows, processed_rows)) ->
    NoDup (keys tag_counts)
    /\ Forall (fun '(tag, count) => tag = strip tag /\ tag <> "" /\ 1 <= count)
              tag_counts
    /\ fold_left Z.add (map snd tag_counts) 0 = processed_rows
    /\ 1 <= processed_rows <= total_rows.
Proof.
  intros file tag_counts total_rows processed_rows E.
  apply read_rows_tally in E as (-> & -> & -> & NZ).
  set (rows := DictReader file) in *.
  split; [apply NoDup_keys_tally_of|]. split; [|split].
  - apply Forall_forall. intros [tag count] I.
    apply In_tally_of in I as [-> I].
    destruct (In_seen_tags tag rows I) as [S NE].
    split; [assumption|]. split; [assumption|].
    unfold occurrences. apply (count_occ_In string_dec) in I. lia.
  - apply total_count_tally_of.
  - split; [lia|]. rewrite length_seen_tags.
    pose proof (filter_length_le contributes rows). lia.
Qed.

(** ** Selection *)

(** With at most 10 distinct tags every tag is selected; in any case the
    selected entries are entries of the tally, with distinct tags. *)
Theorem select_top_tags_all :
  forall (tag_counts : dict string Z),
    NoDup (keys tag_counts) ->
    incl (select_top_tags tag_counts) tag_counts
    /\ NoDup (map fst (select_top_tags tag_counts))
    /\ ((List.length tag_counts <= 10)%nat ->
        Permutation (select_top_tags tag_counts) tag_counts).
Proof.
  intros tag_counts ND. split; [|split].
  - intros entry. apply In_select_top_tags.
  - now apply NoDup_select_top_tags.
  - intros L. rewrite select_top_tags_eq, firstn_all2.
    + apply sorted_perm.
    + now rewrite sorted_length.
Qed.

Section MetadataFacts.
Variable math_log : Z -> Q.

(** What the metadata of a report count: [total_rows] the records after the
    header that are not empty, [processed_rows] those with a tag that is not
    blank, [unique_tags] the distinct trimmed tags, [top_tags_count] the
    entries of the report. *)
Theorem metadata_meaning :
  forall (fs : option csv_rows) (g : rng) (r : report),
    process_csv math_log fs g = Ok (ReportPayload r) ->
    exists fields records,
      fs = Some (fields :: records)
      /\ total_rows (meta r)
         = Z.of_nat (List.length (filter (fun row => negb (Nat.eqb (List.length row) 0))
                                         records))
      /\ processed_rows (meta r)
         = Z.of_nat (List.length (filter contributes (DictReader (fields :: records))))
      /\ unique_tags (meta r)
         = Z.of_nat (List.length
                       (nodup string_dec (seen_tags (DictReader (fields :: records)))))
      /\ top_tags_count (meta r) = Z.of_nat (List.length (tags r)).
Proof.
  intros fs g r E. apply process_csv_report in E as (file & -> & NE & ->).
  destruct file as [|fields records]; [now contradiction NE|].
  exists fields, records. split; [reflexivity|].
  cbn [meta total_rows processed_rows unique_tags top_tags_count tags].
  split; [|split; [|split]].
  - cbn [DictReader]. now rewrite length_map.
  - now rewrite length_seen_tags.
  - unfold len. now rewrite length_tally_of.
  - rewrite sorted_length. unfold percentages. now rewrite !length_map, synthesize_length.
Qed.

End MetadataFacts.

(** ** Bounds of the synthetic counts *)

Lemma int_le (x : Q) (z : Z) : (0 <= x)%Q -> (x <= inject_Z z)%Q -> int x <= z.
Proof.
  intros Hx Hz. rewrite int_floor.
  assert (0 <= Qnum x) by (unfold Qle in Hx; cbn in Hx; lia).
  destruct (Z.leb_spec 0 (Qnum x)); [|lia].
  rewrite <- (Qfloor_Z z). now apply Qfloor_resp_le.
Qed.

Lemma int_lt_step (x y : Q) : (0 <= x)%Q -> (x + 1 <= y)%Q -> int x < int y.
Proof.
  intros Hx Hy.
  assert (Hy0 : (0 <= y)%Q) by lra.
  rewrite !int_floor.
  assert (0 <= Qnum x) by (unfold Qle in Hx; cbn in Hx; lia).
  assert (0 <= Qnum y) by (unfold Qle in Hy0; cbn in Hy0; lia).
  destruct (Z.leb_spec 0 (Qnum x)); [|lia].
  destruct (Z.leb_spec 0 (Qnum y)); [|lia].
  pose proof (Qfloor_le x) as Lx. pose proof (Qlt_floor y) as Uy.
  rewrite inject_Z_plus in Uy. change (inject_Z 1) with 1%Q in Uy.
  assert (Q : (inject_Z (Qfloor x) < inject_Z (Qfloor y))%Q) by lra.
  now rewrite <- Zlt_Qlt in Q.
Qed.

Lemma log_in_range_values math_log (i : nat) :
  log_in_range math_log -> (i < 3)%nat ->
  (0.69 <= math_log (Z.of_nat i + 2)%Z <= 1.39)%Q.
Proof.
  intros (L2 & L3 & L4) Hi.
  destruct i as [|[|[|]]]; try lia; cbn [Z.of_nat Z.add Pos.of_succ_nat Pos.succ Pos.add];
    lra.
Qed.

Section SynthesizerBounds.
Variable math_log : Z -> Q.

Lemma generate_growth_pattern_range :
  forall (base_count : Z) (years : list Z) (g : rng),
    0 <= base_count ->
    valid_rng g ->
    log_in_range math_log ->
    Forall (fun count => 0 <= count <= base_count)
           (fst (generate_growth_pattern math_log base_count years g)).
Proof.
  intros base_count years g Hb V L.
  rewrite generate_growth_pattern_unfold. cbn [fst].
  assert (Hq : (0 <= inject_Z base_count)%Q) by (unfold Qle; cbn; lia).
  apply Forall_map, Forall_forall. intros i Hi. apply in_seq in Hi.
  destruct (V (i + cursor g)%nat) as [R0 R1]. fold (upcoming g i) in R0, R1.
  pose proof (log_in_range_values math_log i L ltac:(lia)) as [La Lb].
  assert (Ii : (0 <= inject_Z (Z.of_nat i) <= 2)%Q)
    by (split; unfold Qle; cbn; lia).
  set (b := inject_Z base_count) in *. set (r := upcoming g i) in *.
  set (l := math_log (Z.of_nat i + 2)) in *. set (k := inject_Z (Z.of_nat i)) in *.
  destruct (base_count >? 1500); [|destruct (base_count >? 800)]; split.
  - apply int_nonneg. repeat apply Qmult_le_0_compat; try assumption; lra.
  - apply int_le.
    + repeat apply Qmult_le_0_compat; try assumption; lra.
    + fold b. assert (b * (0.4 + l * 0.3) <= b * 0.85)%Q by nra.
      assert (0 <= b * (0.4 + l * 0.3))%Q by nra. nra.
  - apply int_nonneg. apply Qmult_le_0_compat; [assumption | lra].
  - apply int_le; [apply Qmult_le_0_compat; [assumption | lra]|]. fold b. nra.
  - apply int_nonneg. apply Qmult_le_0_compat; [assumption | lra].
  - apply int_le; [apply Qmult_le_0_compat; [assumption | lra]|]. fold b. nra.
Qed.

(** No synthetic count is negative or exceeds the base count. *)
Theorem generate_growth_pattern_below_base :
  forall (base_count : Z) (years : list Z) (g : rng),
    0 <= base_count ->
    valid_rng g ->
    log_in_range math_log ->
    Forall (fun count => 0 <= count <= base_count)
           (fst (generate_growth_pattern math_log base_count years g)).
Proof. exact generate_growth_pattern_range. Qed.


(** For a base count above 800 (Tiers A and B) the synthetic counts grow
    strictly from each year to the next. *)
Theorem generate_growth_pattern_increasing :
  forall (base_count : Z) (years : list Z) (g : rng),
    800 < base_count ->
    valid_rng g ->
    log_in_range math_log ->
    exists c0 c1 c2,
      fst (generate_growth_pattern math_log base_count years g) = [c0; c1; c2]
      /\ c0 < c1 < c2.
Proof.
  intros base_count years g Hb V (L2 & L3 & L4).
  rewrite generate_growth_pattern_unfold. cbn [fst map seq].
  do 3 eexists. split; [reflexivity|].
  destruct (V (0 + cursor g)%nat) as [A0 B0]. fold (upcoming g 0) in A0, B0.
  destruct (V (1 + cursor g)%nat) as [A1 B1]. fold (upcoming g 1) in A1, B1.
  destruct (V (2 + cursor g)%nat) as [A2 B2]. fold (upcoming g 2) in A2, B2.
  cbn [Z.of_nat Z.add Pos.of_succ_nat Pos.succ Pos.add].
  change (inject_Z 0) with 0%Q. change (inject_Z 1) with 1%Q.
  change (inject_Z 2) with 2%Q.
  set (r0 := upcoming g 0) in *. set (r1 := upcoming g 1) in *.
  set (r2 := upcoming g 2) in *.
  set (l2 := math_log 2) in *. set (l3 := math_log 3) in *.
  set (l4 := math_log 4) in *.
  destruct (Z.gtb_spec base_count 1500) as [H|H].
  - assert (Hq : (1500 <= inject_Z base_count)%Q) by (unfold Qle; cbn; lia).
    set (b := inject_Z base_count) in *.
    assert (P2 : (0 <= b * (0.4 + l2 * 0.3) <= b * 0.61)%Q) by nra.
    assert (P3 : (b * 0.727 <= b * (0.4 + l3 * 0.3) <= b * 0.73)%Q) by nra.
    assert (P4 : (b * 0.814 <= b * (0.4 + l4 * 0.3))%Q) by nra.
    split; apply int_lt_step; nra.
  - destruct (Z.gtb_spec base_count 800) as [_|H']; [|lia].
    assert (Hq : (800 <= inject_Z base_count)%Q) by (unfold Qle; cbn; lia).
    set (b := inject_Z base_count) in *.
    split; apply int_lt_step; nra.
Qed.

End SynthesizerBounds.

(** ** The random numbers a request reads *)

Section Draws.
Variable math_log : Z -> Q.

Lemma generate_growth_pattern_draws base_count years g g' :
  (forall i, (i < 3)%nat -> upcoming g i = upcoming g' i) ->
  fst (generate_growth_pattern math_log base_count years g)
  = fst (generate_growth_pattern math_log base_count years g').
Proof.
  intros E. rewrite !generate_growth_pattern_unfold. cbn [fst].
  apply map_ext_in. intros i Hi. apply in_seq in Hi.
  rewrite (E i) by lia. reflexivity.
Qed.

Lemma upcoming_after base_count years g i :
  upcoming (snd (generate_growth_pattern math_log base_count years g)) i
  = upcoming g (i + 3).
Proof.
  rewrite generate_growth_pattern_unfold. unfold upcoming. cbn [snd source cursor].
  f_equal. lia.
Qed.

Lemma synthesize_draws (top_tags : list (string * Z)) : forall g g',
  (forall i, (i < 3 * List.length top_tags)%nat -> upcoming g i = upcoming g' i) ->
  synthesize math_log top_tags years3 g = synthesize math_log top_tags years3 g'.
Proof.
  induction top_tags as [|[tag base_count] rest IH]; intros g g' E; [reflexivity|].
  cbn [synthesize List.length] in *.
  pose proof (generate_growth_pattern_draws base_count years3 g g'
                (fun i Hi => E i ltac:(lia))) as F.
  pose proof (upcoming_after base_count years3 g) as U.
  pose proof (upcoming_after base_count years3 g') as U'.
  destruct (generate_growth_pattern math_log base_count years3 g) as [counts g1].
  destruct (generate_growth_pattern math_log base_count years3 g') as [counts' g1'].
  cbn [fst snd] in *. subst counts'. f_equal. apply IH.
  intros i Hi. rewrite U, U'. apply E. lia.
Qed.

(** A request reads three random numbers per top tag, at most 30: two runs
    on the same file whose sources agree on these return the same payload. *)
Theorem process_csv_draws :
  forall (fs : option csv_rows) (g g' : rng),
    (forall i,
       (i < 3 * List.length (match fs with
                             | Some file => top_tags_of file
                             | None => []
                             end))%nat ->
       upcoming g i = upcoming g' i) ->
    process_csv math_log fs g = process_csv math_log fs g'
    /\ (3 * List.length (match fs with
                         | Some file => top_tags_of file
                         | None => []
                         end) <= 30)%nat.
Proof.
  intros fs g g' E. split.
  - destruct fs as [file|]; [|reflexivity]. cbn [process_csv].
    destruct (read_rows file) as [[early|[[tag_counts total_rows] processed_rows]]|e] eqn:R;
      try reflexivity.
    apply read_rows_tally in R as (-> & _).
    rewrite !build_report_closed by apply NoDup_keys_tally_of.
    fold (top_tags_of file). now rewrite (synthesize_draws _ g g' E).
  - destruct fs as [file|]; [|cbn; lia].
    pose proof (length_top_tags_of_le file). lia.
Qed.

End Draws.

(** ** The values of the report *)

Lemma round_half_even_between (a b : Z) (x : Q) :
  (inject_Z a <= x)%Q -> (x <= inject_Z b)%Q ->
  a <= round_half_even x <= b.
Proof.
  intros A B. unfold round_half_even.
  pose proof (Qfloor_le x) as L. pose proof (Qlt_floor x) as U.
  rewrite inject_Z_plus in U. change (inject_Z 1) with 1%Q in U.
  assert (Fa : a <= Qfloor x).
  { rewrite <- (Qfloor_Z a). now apply Qfloor_resp_le. }
  assert (Fb : Qfloor x <= b).
  { rewrite <- (Qfloor_Z b). now apply Qfloor_resp_le. }
  assert (Up : (1 # 2 <= x - inject_Z (Qfloor x))%Q -> Qfloor x + 1 <= b).
  { intros H. assert (Q : (inject_Z (Qfloor x) < inject_Z b)%Q) by lra.
    rewrite <- Zlt_Qlt in Q. lia. }
  destruct (x - inject_Z (Qfloor x) ?= 1 # 2)%Q eqn:C.
  - apply Qeq_alt in C. destruct (Z.even (Qfloor x)); [lia|].
    split; [lia|]. apply Up. lra.
  - lia.
  - apply Qgt_alt in C. split; [lia|]. apply Up. lra.
Qed.

Lemma round_2_between (x : Q) : (0 <= x <= 100)%Q -> (0 <= round x 2 <= 100)%Q.
Proof.
  intros [A B]. rewrite round_2.
  destruct (round_half_even_between 0 10000 (x * 100)) as [L U].
  - change (inject_Z 0) with 0%Q. lra.
  - change (inject_Z 10000) with 10000%Q. lra.
  - unfold Qle. cbn [Qnum Qden]. lia.
Qed.

Lemma percentage_between (count total : Z) :
  0 <= count <= total -> (0 <= percentage count total <= 100)%Q.
Proof.
  intros [A B]. unfold percentage. apply round_2_between.
  destruct (Z.gtb_spec total 0) as [P|_]; [|lra].
  assert (Tq : (0 < inject_Z total)%Q) by (unfold Qlt; cbn; lia).
  assert (Cq : (0 <= inject_Z count <= inject_Z total)%Q)
    by (split; unfold Qle; cbn; lia).
  assert (D : (0 <= inject_Z count / inject_Z total <= 1)%Q).
  { split.
    - apply Qle_shift_div_l; [assumption | lra].
    - apply Qle_shift_div_r; [assumption | lra]. }
  lra.
Qed.

Lemma In_le_fold_left_Zadd (l : list Z) x :
  Forall (fun y => 0 <= y) l -> In x l -> x <= fold_left Z.add l 0.
Proof.
  induction 1 as [|y l Hy F IH]; cbn [In fold_left]; [tauto|].
  rewrite fold_left_Zadd. pose proof (fold_left_Zadd_nonneg l F).
  intros [->|I]; [lia|]. apply IH in I. lia.
Qed.

Section ReportValues.
Variable math_log : Z -> Q.

(** Every percentage and every average of the report lies between 0 and 100. *)
Theorem report_percentages_between :
  forall (fs : option csv_rows) (g : rng) (r : report),
    valid_rng g ->
    log_nonneg math_log ->
    process_csv math_log fs g = Ok (ReportPayload r) ->
    Forall (fun t =>
              Forall (fun p => 0 <= p <= 100)%Q (data t)
              /\ (0 <= average t <= 100)%Q) (tags r).
Proof.
  intros fs g r V L E. apply process_csv_report in E as (file & -> & _ & ->).
  cbn [tags]. set (series := synthesize math_log (top_tags_of file) years3 g).
  eapply Permutation_Forall; [symmetry; apply sorted_perm|].
  rewrite percentages_eq, map_map. apply Forall_map, Forall_forall.
  intros [tag counts] I.
  assert (N : Forall (fun entry => Forall (fun count => 0 <= count) (snd entry)) series).
  { apply synthesize_nonneg; try assumption. apply top_tags_of_nonneg. }
  assert (P : forall j, (0 <= percentage (nth j counts 0%Z) (yearly_total j series)
                         <= 100)%Q).
  { intros j. apply percentage_between.
    pose proof (year_counts_nonneg j series N) as Nj.
    assert (Ij : In (nth j counts 0) (year_counts j series)).
    { unfold year_counts. apply in_map_iff. now exists (tag, counts). }
    split.
    - revert Ij. now apply Forall_forall.
    - now apply In_le_fold_left_Zadd. }
  cbn [pct_entry series_of data average map seq]. split.
  - repeat constructor; apply P.
  - apply round_2_between. unfold sum. cbn [fold_left].
    pose proof (P 0%nat). pose proof (P 1%nat). pose proof (P 2%nat).
    split.
    + apply Qle_shift_div_l; [reflexivity | lra].
    + apply Qle_shift_div_r; [reflexivity | lra].
Qed.

(** When the total of a year is 0 no division takes place: every percentage
    of that year is 0. *)
Theorem zero_total_percentages :
  forall (fs : option csv_rows) (g : rng) (r : report) (j : nat) (year : Z),
    process_csv math_log fs g = Ok (ReportPayload r) ->
    nth_error (years r) j = Some year ->
    get (total_questions r) year = Some 0 ->
    Forall (fun t => exists p, nth_error (data t) j = Some p /\ (p == 0)%Q) (tags r).
Proof.
  intros fs g r j year E Y T. apply process_csv_report in E as (file & -> & _ & ->).
  cbn [years tags total_questions] in *.
  set (series := synthesize math_log (top_tags_of file) years3 g) in *.
  assert (Hj : (j < 3)%nat) by (apply (proj1 (nth_error_Some years3 j)); congruence).
  assert (Z : yearly_total j series = 0).
  { destruct j as [|[|[|]]]; try lia; cbn [nth_error] in Y; injection Y as <-;
      cbn [get key_eqb Z_Key Z.eqb Pos.eqb] in T; now injection T. }
  eapply Permutation_Forall; [symmetry; apply sorted_perm|].
  rewrite percentages_eq, map_map. apply Forall_map, Forall_forall.
  intros [tag counts] I. cbn [pct_entry series_of data map seq].
  exists (percentage (nth j counts 0) (yearly_total j series)). split.
  - destruct j as [|[|[|]]]; try reflexivity; lia.
  - rewrite Z. reflexivity.
Qed.

(** The report lists each top tag once, at most 10 of them, with one
    percentage per year, and gives one total per year. *)
Theorem report_shape :
  forall (fs : option csv_rows) (g : rng) (r : report),
    process_csv math_log fs g = Ok (ReportPayload r) ->
    NoDup (map name (tags r))
    /\ (1 <= List.length (tags r) <= 10)%nat
    /\ Forall (fun t => List.length (data t) = List.length (years r)) (tags r)
    /\ keys (total_questions r) = years r.
Proof.
  intros fs g r E. apply process_csv_report in E as (file & -> & NE & ->).
  cbn [years tags total_questions].
  set (series := synthesize math_log (top_tags_of file) years3 g).
  pose proof (sorted_perm Qle_bool average true (map series_of (percentages series)))
    as P.
  split; [|split; [|split]].
  - eapply Permutation_NoDup; [symmetry; apply Permutation_map; exact P|].
    rewrite names_of_percentages. unfold series. rewrite synthesize_keys.
    apply NoDup_select_top_tags, NoDup_keys_tally_of.
  - rewrite sorted_length. unfold percentages. rewrite !length_map.
    unfold series. rewrite synthesize_length, length_top_tags_of, length_tally_of.
    destruct (seen_tags (DictReader file)) as [|t l] eqn:S; [congruence|].
    assert (I : In t (nodup string_dec (t :: l))) by (apply nodup_In; now left).
    destruct (nodup string_dec (t :: l)); [contradiction | cbn [List.length]; lia].
  - eapply Permutation_Forall; [symmetry; exact P|].
    rewrite percentages_eq, map_map. apply Forall_map, Forall_forall.
    now intros [tag counts] _.
  - reflexivity.
Qed.

End ReportValues.

(** ** Yearly totals against the rows read *)

Lemma fold_left_Zadd_Permutation (l l' : list Z) :
  Permutation l l' -> fold_left Z.add l 0 = fold_left Z.add l' 0.
Proof.
  induction 1 as [|x l l' P IH|x y l|l1 l2 l3 P1 IH1 P2 IH2]; cbn [fold_left].
  - reflexivity.
  - rewrite (fold_left_Zadd l), (fold_left_Zadd l'). lia.
  - rewrite (fold_left_Zadd l (0 + y + x)), (fold_left_Zadd l (0 + x + y)). lia.
  - congruence.
Qed.

Lemma fold_left_Zadd_firstn n (l : list Z) :
  Forall (fun x => 0 <= x) l ->
  fold_left Z.add (firstn n l) 0 <= fold_left Z.add l 0.
Proof.
  intros F. revert n. induction F as [|x l Hx F IH]; intros [|n]; cbn [firstn fold_left].
  - lia.
  - lia.
  - rewrite fold_left_Zadd. pose proof (fold_left_Zadd_nonneg l F). lia.
  - rewrite (fold_left_Zadd (firstn n l)), (fold_left_Zadd l). specialize (IH n). lia.
Qed.

Lemma total_count_select_top_tags (tag_counts : dict string Z) :
  Forall (fun entry => 0 <= snd entry) tag_counts ->
  total_count (select_top_tags tag_counts) <= total_count tag_counts.
Proof.
  intros F. unfold total_count. rewrite select_top_tags_eq, <- firstn_map.
  pose proof (Permutation_map snd (sorted_perm Z.leb snd true tag_counts)) as P.
  rewrite <- (fold_left_Zadd_Permutation _ _ P).
  apply fold_left_Zadd_firstn, Forall_map.
  eapply Permutation_Forall; [symmetry; apply sorted_perm | exact F].
Qed.

Section TotalsFacts.
Variable math_log : Z -> Q.
Hypothesis log_ok : log_in_range math_log.

Lemma yearly_total_le (j : nat) (top_tags : list (string * Z)) : forall g,
  valid_rng g ->
  Forall (fun entry => 0 <= snd entry) top_tags ->
  0 <= yearly_total j (synthesize math_log top_tags years3 g) <= total_count top_tags.
Proof.
  unfold yearly_total, year_counts.
  induction top_tags as [|[tag base_count] rest IH]; intros g V F; cbn [synthesize].
  - cbn. lia.
  - inversion F as [|? ? B F']; subst. cbn [snd] in B.
    pose proof (generate_growth_pattern_range math_log base_count years3 g B V log_ok)
      as R.
    pose proof (generate_growth_pattern_valid math_log base_count years3 g V) as V'.
    destruct (generate_growth_pattern _ _ _ _) as [counts g']. cbn [fst snd] in *.
    cbn [map fold_left]. rewrite fold_left_Zadd, total_count_cons.
    specialize (IH g' V' F').
    assert (N : 0 <= nth j counts 0 <= base_count).
    { destruct (nth_in_or_default j counts 0) as [I| ->]; [|lia].
      exact (proj1 (Forall_forall _ _) R _ I). }
    lia.
Qed.

End TotalsFacts.

Lemma log_in_range_nonneg math_log : log_in_range math_log -> log_nonneg math_log.
Proof.
  intros (L2 & L3 & L4) n Hn.
  assert (C : n = 2 \/ n = 3 \/ n = 4) by lia.
  destruct C as [-> | [-> | ->]]; lra.
Qed.

Section TotalsBound.
Variable math_log : Z -> Q.

(** The synthetic total of a year is never negative and never exceeds the
    number of processed rows. *)
Theorem yearly_totals_below_processed :
  forall (fs : option csv_rows) (g : rng) (r : report) (year total : Z),
    valid_rng g ->
    log_in_range math_log ->
    process_csv math_log fs g = Ok (ReportPayload r) ->
    get (total_questions r) year = Some total ->
    0 <= total <= processed_rows (meta r).
Proof.
  intros fs g r year total V L E T.
  apply process_csv_report in E as (file & -> & _ & ->).
  cbn [total_questions meta processed_rows] in *.
  set (series := synthesize math_log (top_tags_of file) years3 g) in *.
  assert (B : forall j, 0 <= yearly_total j series
                        <= Z.of_nat (List.length (seen_tags (DictReader file)))).
  { intros j.
    pose proof (yearly_total_le math_log L j (top_tags_of file) g V
                  (top_tags_of_nonneg file)) as Y. fold series in Y.
    assert (S : total_count (top_tags_of file)
                <= total_count (tally_of (seen_tags (DictReader file)))).
    { apply total_count_select_top_tags. apply Forall_forall. intros [tag count] I.
      apply In_tally_of in I as [-> _]. unfold occurrences. cbn. lia. }
    rewrite total_count_tally_of in S. lia. }
  cbn [get key_eqb Z_Key] in T.
  destruct (year =? 2023); [injection T as <-; apply B|].
  destruct (year =? 2024); [injection T as <-; apply B|].
  destruct (year =? 2025); [injection T as <-; apply B|discriminate].
Qed.

End TotalsBound.

(** ** The sample inputs, again *)

Lemma libm_log_in_range : log_in_range libm_log.
Proof. unfold log_in_range, libm_log. repeat split; discriminate. Qed.

Lemma half_rng_valid : valid_rng (constant_rng 0.5).
Proof. apply constant_rng_valid; [discriminate | reflexivity]. Qed.

Lemma lone_report_eq :
  process_csv libm_log (Some lone_file) (constant_rng 0.5) = Ok (ReportPayload lone_report).
Proof. vm_compute. reflexivity. Qed.


Lemma summary_counts_add_up_witness :
  process_csv libm_log (Some sample_file) (constant_rng 0.5)
  = Ok (ReportPayload sample_report)
  /\ get (total_questions sample_report) 2024 = Some 1804
  /\ exists written,
       process_csv_and_summary libm_log (Some sample_file) true (constant_rng 0.5)
       = Ok (ReportPayload sample_report, Some written)
       /\ fold_left Z.add (counts_written 2024 written) 0 = 1804.
Proof.
  assert (T : get (total_questions sample_report) 2024 = Some 1804) by reflexivity.
  split; [exact sample_report_eq|]. split; [exact T|].
  apply (summary_counts_add_up libm_log sample_file (constant_rng 0.5) sample_report
           2024 1804 sample_report_eq T).
Defined.

Lemma tag_key_always_present_witness :
  In "Tag" ["Id"; "Tag"]
  /\ In [("Id", Some "2"); ("Tag", None)] (DictReader short_row_file)
  /\ exists v,
       getitem [("Id", Some "2"); ("Tag", None)] "Tag" = Ok v
       /\ count_row ([], 0, 0) [("Id", Some "2"); ("Tag", None)] =
          match v with
          | Some s =>
              let '(tag_counts, total_rows, processed_rows) := ([], 0, 0) in
              if is_empty (strip s)
              then Ok (tag_counts, total_rows + 1, processed_rows)
              else Ok (increment tag_counts (strip s), total_rows + 1,
                       processed_rows + 1)
          | None =>
              Raise (AttributeError "'NoneType' object has no attribute 'strip'")
          end.
Proof.
  assert (T : In "Tag" ["Id"; "Tag"]) by (right; now left).
  assert (I : In [("Id", Some "2"); ("Tag", None)] (DictReader short_row_file))
    by (right; now left).
  split; [exact T|]. split; [exact I|].
  apply (tag_key_always_present ["Id"; "Tag"]
           [["1"; "python"]; ["2"]; ["3"; "go"]] _ ([], 0, 0) T I).
Defined.

Lemma short_record_aborts_witness :
  In "Tag" ["Id"; "Tag"]
  /\ In ["2"] [["1"; "python"]; ["2"]; ["3"; "go"]]
  /\ ["2"] <> []
  /\ ~ In "Tag" (firstn (List.length ["2"]) ["Id"; "Tag"])
  /\ process_csv libm_log (Some short_row_file) (constant_rng 0.5)
     = Ok (ErrorPayload
             "Error reading CSV file: 'NoneType' object has no attribute 'strip'").
Proof.
  assert (T : In "Tag" ["Id"; "Tag"]) by (right; now left).
  assert (I : In ["2"] [["1"; "python"]; ["2"]; ["3"; "go"]]) by (right; now left).
  assert (N : ["2"] <> []) by discriminate.
  assert (S : ~ In "Tag" (firstn (List.length ["2"]) ["Id"; "Tag"]))
    by (cbn; intros [E|[]]; discriminate).
  split; [exact T|]. split; [exact I|]. split; [exact N|]. split; [exact S|].
  apply (short_record_aborts libm_log ["Id"; "Tag"]
           [["1"; "python"]; ["2"]; ["3"; "go"]] ["2"] (constant_rng 0.5) T I N S).
Defined.

Lemma tally_invariants_witness :
  read_rows mixed_file = Ok (inr ([("python", 2); ("go", 1); ("rust", 1)], 5, 4))
  /\ NoDup (keys [("python", 2); ("go", 1); ("rust", 1)])
  /\ Forall (fun '(tag, count) => tag = strip tag /\ tag <> "" /\ 1 <= count)
            [("python", 2); ("go", 1); ("rust", 1)]
  /\ fold_left Z.add (map snd [("python", 2); ("go", 1); ("rust", 1)]) 0 = 4
  /\ 1 <= 4 <= 5.
Proof.
  split; [exact mixed_file_tally|].
  apply (tally_invariants mixed_file [("python", 2); ("go", 1); ("rust", 1)] 5 4
           mixed_file_tally).
Defined.

Lemma select_top_tags_all_witness :
  NoDup (keys [("python", 2); ("go", 1); ("rust", 1)])
  /\ incl (select_top_tags [("python", 2); ("go", 1); ("rust", 1)])
          [("python", 2); ("go", 1); ("rust", 1)]
  /\ NoDup (map fst (select_top_tags [("python", 2); ("go", 1); ("rust", 1)]))
  /\ ((List.length [("python", 2); ("go", 1); ("rust", 1)] <= 10)%nat ->
      Permutation (select_top_tags [("python", 2); ("go", 1); ("rust", 1)])
                  [("python", 2); ("go", 1); ("rust", 1)]).
Proof.
  assert (ND : NoDup (keys [("python", 2); ("go", 1); ("rust", 1)])).
  { repeat constructor; cbn; intuition discriminate. }
  split; [exact ND|].
  apply (select_top_tags_all [("python", 2); ("go", 1); ("rust", 1)] ND).
Defined.

Lemma metadata_meaning_witness :
  process_csv libm_log (Some sample_file) (constant_rng 0.5)
  = Ok (ReportPayload sample_report)
  /\ exists fields records,
       Some sample_file = Some (fields :: records)
       /\ total_rows (meta sample_report)
          = Z.of_nat (List.length
                        (filter (fun row => negb (Nat.eqb (List.length row) 0)) records))
       /\ processed_rows (meta sample_report)
          = Z.of_nat (List.length (filter contributes (DictReader (fields :: records))))
       /\ unique_tags (meta sample_report)
          = Z.of_nat (List.length
                        (nodup string_dec (seen_tags (DictReader (fields :: records)))))
       /\ top_tags_count (meta sample_report)
          = Z.of_nat (List.length (tags sample_report)).
Proof.
  split; [exact sample_report_eq|].
  apply (metadata_meaning libm_log (Some sample_file) (constant_rng 0.5) sample_report
           sample_report_eq).
Defined.

Lemma generate_growth_pattern_below_base_witness :
  0 <= 600
  /\ valid_rng (constant_rng 0.5)
  /\ log_in_range libm_log
  /\ Forall (fun count => 0 <= count <= 600)
            (fst (generate_growth_pattern libm_log 600 years3 (constant_rng 0.5))).
Proof.
  assert (B : 0 <= 600) by lia.
  split; [exact B|]. split; [exact half_rng_valid|]. split; [exact libm_log_in_range|].
  apply (generate_growth_pattern_below_base libm_log 600 years3 (constant_rng 0.5)
           B half_rng_valid libm_log_in_range).
Defined.

Lemma generate_growth_pattern_increasing_witness :
  800 < 2000
  /\ valid_rng (constant_rng 0.5)
  /\ log_in_range libm_log
  /\ exists c0 c1 c2,
       fst (generate_growth_pattern libm_log 2000 years3 (constant_rng 0.5))
       = [c0; c1; c2]
       /\ c0 < c1 < c2.
Proof.
  assert (B : 800 < 2000) by lia.
  split; [exact B|]. split; [exact half_rng_valid|]. split; [exact libm_log_in_range|].
  apply (generate_growth_pattern_increasing libm_log 2000 years3 (constant_rng 0.5)
           B half_rng_valid libm_log_in_range).
Defined.

Lemma process_csv_draws_witness :
  (forall i,
     (i < 3 * List.length (top_tags_of mixed_file))%nat ->
     upcoming (constant_rng 0.5) i = upcoming (rng_until 9 0.5) i)
  /\ process_csv libm_log (Some mixed_file) (constant_rng 0.5)
     = process_csv libm_log (Some mixed_file) (rng_until 9 0.5)
  /\ (3 * List.length (top_tags_of mixed_file) <= 30)%nat.
Proof.
  assert (E : forall i,
             (i < 3 * List.length (top_tags_of mixed_file))%nat ->
             upcoming (constant_rng 0.5) i = upcoming (rng_until 9 0.5) i).
  { intros i Hi. change (3 * List.length (top_tags_of mixed_file))%nat with 9%nat in Hi.
    unfold upcoming, constant_rng, rng_until. cbn [source cursor].
    rewrite Nat.add_0_r. now rewrite (proj2 (Nat.ltb_lt i 9) Hi). }
  split; [exact E|].
  apply (process_csv_draws libm_log (Some mixed_file) (constant_rng 0.5)
           (rng_until 9 0.5) E).
Defined.

Lemma report_percentages_between_witness :
  valid_rng (constant_rng 0.5)
  /\ log_nonneg libm_log
  /\ process_csv libm_log (Some sample_file) (constant_rng 0.5)
     = Ok (ReportPayload sample_report)
  /\ Forall (fun t =>
               Forall (fun p => 0 <= p <= 100)%Q (data t)
               /\ (0 <= average t <= 100)%Q) (tags sample_report).
Proof.
  split; [exact half_rng_valid|]. split; [exact libm_log_nonneg|].
  split; [exact sample_report_eq|].
  apply (report_percentages_between libm_log (Some sample_file) (constant_rng 0.5)
           sample_report half_rng_valid libm_log_nonneg sample_report_eq).
Defined.

Lemma zero_total_percentages_witness :
  process_csv libm_log (Some lone_file) (constant_rng 0.5) = Ok (ReportPayload lone_report)
  /\ nth_error (years lone_report) 1 = Some 2024
  /\ get (total_questions lone_report) 2024 = Some 0
  /\ Forall (fun t => exists p, nth_error (data t) 1 = Some p /\ (p == 0)%Q)
            (tags lone_report).
Proof.
  assert (Y : nth_error (years lone_report) 1 = Some 2024) by reflexivity.
  assert (T : get (total_questions lone_report) 2024 = Some 0) by reflexivity.
  split; [exact lone_report_eq|]. split; [exact Y|]. split; [exact T|].
  apply (zero_total_percentages libm_log (Some lone_file) (constant_rng 0.5)
           lone_report 1 2024 lone_report_eq Y T).
Defined.

Lemma report_shape_witness :
  process_csv libm_log (Some sample_file) (constant_rng 0.5)
  = Ok (ReportPayload sample_report)
  /\ NoDup (map name (tags sample_report))
  /\ (1 <= List.length (tags sample_report) <= 10)%nat
  /\ Forall (fun t => List.length (data t) = List.length (years sample_report))
            (tags sample_report)
  /\ keys (total_questions sample_report) = years sample_report.
Proof.
  split; [exact sample_report_eq|].
  apply (report_shape libm_log (Some sample_file) (constant_rng 0.5) sample_report
           sample_report_eq).
Defined.

Lemma yearly_totals_below_processed_witness :
  valid_rng (constant_rng 0.5)
  /\ log_in_range libm_log
  /\ process_csv libm_log (Some sample_file) (constant_rng 0.5)
     = Ok (ReportPayload sample_report)
  /\ get (total_questions sample_report) 2025 = Some 2066
  /\ 0 <= 2066 <= processed_rows (meta sample_report).
Proof.
  assert (T : get (total_questions sample_report) 2025 = Some 2066) by reflexivity.
  split; [exact half_rng_valid|]. split; [exact libm_log_in_range|].
  split; [exact sample_report_eq|]. split; [exact T|].
  apply (yearly_totals_below_processed libm_log (Some sample_file) (constant_rng 0.5)
           sample_report 2025 2066 half_rng_valid libm_log_in_range sample_report_eq T).
Defined.
